(** * MinBFT core: the request pipeline of [core/request.go]

    A shallow embedding of the Go closures built by the [make...]
    constructors of [core/request.go], and the properties of the request
    processor, request applier, request executor, operation executor,
    sequence preparer/retirer and request timer starter.

    Go function values are Rocq functions into a small program monad
    [Prog]: a program is a tree of primitive operations (atomic memory
    operations of [sync/atomic], calls that leave the core, goroutine
    creation), it may return or panic.  The same program text is given a
    sequential semantics ([run]) and an interleaving one ([pool_step]),
    the latter for the concurrent-entry guard of the operation executor. *)

From Stdlib Require Import ZArith List String Bool Lia Arith.
From Stdlib.Strings Require Import Byte.
Import ListNotations.

Set Implicit Arguments.
Local Open Scope Z_scope.

(** ** Basic Go data *)

(** [[]byte] *)
Definition bytes := list byte.

(** Go's [error]: [None] is [nil], [Some msg] an error whose [Error()]
    text is [msg]. *)
Definition error := option string.

(** A channel value ([<-chan []byte]) is known by its identity only. *)
Definition chan := nat.

(** Address of a [uint32] variable that escapes to the heap. *)
Definition cell := nat.

(** ** Messages (package [messages]): the fields [request.go] reads and
    writes.  [uint32] and [uint64] fields are carried as [Z]; the file
    does no arithmetic on them. *)
Module messages.

Module Request_M.
Record t := mk { ClientId : Z; Seq : Z; Payload : bytes }.
End Request_M.

Module Request.
Record t := mk { Msg : Request_M.t; Signature : bytes }.
End Request.

Module Prepare_M.
Record t := mk { View : Z; ReplicaId : Z; Request : Request.t }.
End Prepare_M.

(** [Ui] is left empty by the applier: the generated-UI-message handler
    assigns it. *)
Module Prepare.
Record t := mk { Msg : Prepare_M.t; Ui : bytes }.
End Prepare.

Module Reply_M.
Record t := mk { ReplicaId : Z; ClientId : Z; Seq : Z; Result : bytes }.
End Reply_M.

Module Reply.
Record t := mk { Msg : Reply_M.t; Signature : bytes }.
End Reply.

End messages.
Import messages.

(** ** Primitive operations *)

(** [sync/atomic] on a [uint32] variable, and the declaration of such a
    variable captured by a closure. *)
Inductive Mem : Type -> Type :=
| NewUint32 (init : Z) : Mem cell
| SwapUint32 (addr : cell) (new : Z) : Mem Z
| StoreUint32 (addr : cell) (val : Z) : Mem unit.

(** Token standing for the release closure handed out by the client
    state when a sequence number is captured. *)
Definition releaseToken := nat.

(** Operations answered by what lies outside [request.go]: the Go runtime
    (channel receive) and the collaborators the replica is wired with.
    They are used to observe, in a trace, what the closures of this file
    hand to their collaborators. *)
Inductive Ext : Type -> Type :=
| ChanRecv (c : chan) : Ext bytes
| ConsumerDeliverEnter (op : bytes) : Ext unit
| ConsumerDeliverExit (op : bytes) : Ext chan
| ViewNow : Ext Z
| HandleGeneratedUIMessage (prepare : Prepare.t) : Ext unit
| SignReply (reply : Reply.t) : Ext bytes
| HandleGeneratedMessage (reply : Reply.t) : Ext unit
| ProvideClientState (clientID : Z) : Ext unit
| StateCaptureRequestSeq (clientID seq : Z) : Ext (bool * releaseToken)
| StateReleaseRequestSeq (clientID : Z) (tok : releaseToken) : Ext unit
| StatePrepareRequestSeq (clientID seq : Z) : Ext (bool * error)
| StateRetireRequestSeq (clientID seq : Z) : Ext (bool * error)
| StateStartRequestTimer (clientID : Z) : Ext unit
| StateStopRequestTimer (clientID : Z) : Ext unit
| StateReplyChannel (clientID seq : Z) : Ext chan
| LoggerWarningf (format : string) (args : list Z) : Ext unit
| HandleTimeout (view : Z) : Ext unit
| ConfigTimeoutRequest : Ext Z.

(** ** The program monad *)

Inductive Prog (R : Type) : Type :=
| Ret (r : R)
| Panic (v : string)
| Atomic (X : Type) (m : Mem X) (k : X -> Prog R)
| Call (X : Type) (e : Ext X) (k : X -> Prog R)
| Go (f : Prog unit) (k : Prog R).

Arguments Ret {R} r.
Arguments Panic {R} v.
Arguments Atomic {R X} m k.
Arguments Call {R X} e k.
Arguments Go {R} f k.

Fixpoint bind {A B : Type} (p : Prog A) (k : A -> Prog B) : Prog B :=
  match p with
  | Ret a => k a
  | Panic v => Panic v
  | Atomic m c => Atomic m (fun x => bind (c x) k)
  | Call e c => Call e (fun x => bind (c x) k)
  | Go f c => Go f (bind c k)
  end.

Declare Scope prog_scope.
Delimit Scope prog_scope with prog.
Bind Scope prog_scope with Prog.
Notation "x <- p ;; q" := (bind p (fun x => q))
  (at level 61, p at next level, right associativity) : prog_scope.
Notation "' pat <- p ;; q" := (bind p (fun x => match x with pat => q end))
  (at level 61, pat pattern, p at next level, right associativity) : prog_scope.
Notation "p ;; q" := (bind p (fun _ => q))
  (at level 61, right associativity) : prog_scope.
Local Open Scope prog_scope.

Definition atomic {X} (m : Mem X) : Prog X := Atomic m Ret.
Definition call {X} (e : Ext X) : Prog X := Call e Ret.

(** [go f()] *)
Definition go (f : Prog unit) : Prog unit := Go f (Ret tt).

(** [defer deferred(); body]: the deferred call runs when the rest of the
    function body returns or panics; the result of the body (already
    evaluated) is what the function returns, a panic goes on unwinding. *)
Fixpoint defer {R : Type} (deferred : Prog unit) (body : Prog R) : Prog R :=
  match body with
  | Ret r => deferred ;; Ret r
  | Panic v => deferred ;; Panic v
  | Atomic m c => Atomic m (fun x => defer deferred (c x))
  | Call e c => Call e (fun x => defer deferred (c x))
  | Go f c => Go f (defer deferred c)
  end.

(** ** Sequential semantics

    A program runs against a heap of [uint32] cells and an environment:
    a state [S] and a function [handle] that answers every external
    operation.  The run records the operations in order, with their
    answers, and the goroutines it created (they have not run yet). *)

Inductive event : Type :=
| EvMem (X : Type) (m : Mem X) (x : X)
| EvExt (X : Type) (e : Ext X) (x : X).

Arguments EvMem {X} m x.
Arguments EvExt {X} e x.

Inductive Outcome (R : Type) : Type :=
| Returned (r : R)
| Panicked (v : string).

Arguments Returned {R} r.
Arguments Panicked {R} v.

Definition heap := list Z.

Fixpoint heap_set (a : cell) (v : Z) (h : heap) : heap :=
  match h, a with
  | [], _ => []
  | _ :: t, O => v :: t
  | x :: t, S a' => x :: heap_set a' v t
  end.

(** A cell that was never declared reads 0 and ignores writes; the
    closures of this file only use cells they declared. *)
Definition mem_step {X} (m : Mem X) (h : heap) : X * heap :=
  match m in Mem X return X * heap with
  | NewUint32 init => (List.length h, h ++ [init])
  | SwapUint32 addr new => (nth addr h 0, heap_set addr new h)
  | StoreUint32 addr val => (tt, heap_set addr val h)
  end.

Section Semantics.

Variable S : Type.
Variable handle : forall X, Ext X -> S -> X * S.

Record world := World { mem : heap; env : S }.

Record result (R : Type) := Result {
  trace : list event;
  spawned : list (Prog unit);
  outcome : Outcome R;
  final : world }.

Definition after {R} (ev : event) (r : result R) : result R :=
  {| trace := ev :: trace r; spawned := spawned r;
     outcome := outcome r; final := final r |}.

Definition with_goroutine {R} (f : Prog unit) (r : result R) : result R :=
  {| trace := trace r; spawned := f :: spawned r;
     outcome := outcome r; final := final r |}.

Fixpoint run {R : Type} (p : Prog R) (w : world) : result R :=
  match p with
  | Ret r => {| trace := []; spawned := []; outcome := Returned r; final := w |}
  | Panic v => {| trace := []; spawned := []; outcome := Panicked v; final := w |}
  | Atomic m k =>
      let a := mem_step m (mem w) in
      after (EvMem m (fst a)) (run (k (fst a)) {| mem := snd a; env := env w |})
  | Call e k =>
      let a := handle e (env w) in
      after (EvExt e (fst a)) (run (k (fst a)) {| mem := mem w; env := snd a |})
  | Go f k => with_goroutine f (run k w)
  end.

(** What [p] did, followed by what [q] did from where [p] stopped. *)
Definition then_result {A B C} (r1 : result A) (r2 : result B) (o : Outcome C)
  : result C :=
  {| trace := trace r1 ++ trace r2; spawned := spawned r1 ++ spawned r2;
     outcome := o; final := final r2 |}.

Definition halt {A B} (r : result A) (v : string) : result B :=
  {| trace := trace r; spawned := spawned r;
     outcome := Panicked v; final := final r |}.

End Semantics.

Arguments World {S} mem env.
Arguments Result {S R} trace spawned outcome final.

(** ** Interleaving semantics

    Goroutines take turns: at each turn one of them performs its next
    primitive operation.  A goroutine that has returned or panicked does
    not move. *)

Section Pool.

Variable S : Type.
Variable handle : forall X, Ext X -> S -> X * S.

Record pool := Pool {
  pmem : heap;
  penv : S;
  threads : list (Prog unit);
  plog : list event }.

Record moved (R : Type) := Moved {
  next : Prog R;
  mem_after : heap;
  env_after : S;
  done : list event;
  started : list (Prog unit) }.

Definition prim_step {R : Type} (p : Prog R) (h : heap) (s : S)
  : option (moved R) :=
  match p with
  | Ret _ => None
  | Panic _ => None
  | Atomic m k =>
      let a := mem_step m h in
      Some (Moved (k (fst a)) (snd a) s [EvMem m (fst a)] [])
  | Call e k =>
      let a := handle e s in
      Some (Moved (k (fst a)) h (snd a) [EvExt e (fst a)] [])
  | Go f k => Some (Moved k h s [] [f])
  end.

Definition pool_step (i : nat) (c : pool) : pool :=
  match nth_error (threads c) i with
  | None => c
  | Some p =>
      match prim_step p (pmem c) (penv c) with
      | None => c
      | Some m =>
          Pool (mem_after m) (env_after m)
               (firstn i (threads c) ++ next m ::
                skipn (Datatypes.S i) (threads c) ++ started m)
               (plog c ++ done m)
      end
  end.

Definition pool_run (schedule : list nat) (c : pool) : pool :=
  fold_left (fun c i => pool_step i c) schedule c.

End Pool.

Arguments Pool {S} pmem penv threads plog.

(** ** Collaborator interfaces

    A Go interface becomes a record of methods.  Only the methods
    [request.go] calls are listed. *)

Module clientstate.

(** [clientstate.State].  [CaptureRequestSeq] hands back the release
    closure; [StartRequestTimer] is given the closure to run on expiry. *)
Record State := {
  CaptureRequestSeq : Z -> Prog (bool * Prog unit);
  PrepareRequestSeq : Z -> Prog (bool * error);
  RetireRequestSeq : Z -> Prog (bool * error);
  StartRequestTimer : Prog unit -> Prog unit;
  StopRequestTimer : Prog unit;
  ReplyChannel : Z -> Prog chan }.

(** [clientstate.Provider] *)
Definition Provider := Z -> Prog State.

End clientstate.

Module api.

(** [api.RequestConsumer] *)
Record RequestConsumer := { Deliver : bytes -> Prog chan }.

(** [api.Configer]; a [time.Duration] is an integer count. *)
Record Configer := { TimeoutRequest : Prog Z }.

End api.

Module logging.

(** [*logging.Logger]; the arguments of the format are the integers the
    file formats with [%d]. *)
Record Logger := { Warningf : string -> list Z -> Prog unit }.

End logging.

(** [fmt.Errorf(format, err)] for a format whose only verb is a trailing
    [%s]: the text before the verb followed by [err.Error()]. *)
Definition Errorf (prefix : string) (err : string) : error :=
  Some (prefix ++ err)%string.

(** ** The closures of [core/request.go] *)

Definition requestReplier := Request.t -> Prog chan.
Definition requestValidator := Request.t -> Prog error.
Definition requestProcessor := Request.t -> Prog (bool * error).
Definition requestApplier := Request.t -> Prog error.
Definition requestExecutor := Request.t -> Prog unit.
Definition operationExecutor := bytes -> Prog chan.
Definition requestSeqCapturer := Request.t -> Prog (bool * Prog unit).
Definition requestSeqPreparer := Request.t -> Prog bool.
Definition requestSeqRetirer := Request.t -> Prog bool.
Definition requestTimerStarter := Z -> Z -> Prog unit.
Definition requestTimerStopper := Z -> Prog unit.
Definition requestTimeoutHandler := Z -> Prog unit.
Definition requestTimeoutProvider := Prog Z.

(** Collaborators declared in other files of the package. *)
Definition messageSignatureVerifier := Request.t -> Prog error.
Definition viewProvider := Prog Z.
Definition generatedUIMessageHandler := Prepare.t -> Prog unit.
Definition generatedMessageHandler := Reply.t -> Prog unit.

(** The signer is handed a pointer and attaches the signature in place;
    here it returns the message as it left it. *)
Definition replicaMessageSigner := Reply.t -> Prog Reply.t.

Definition makeRequestValidator (verify : messageSignatureVerifier)
  : requestValidator :=
  fun request => verify request.

Definition makeRequestProcessor (captureSeq : requestSeqCapturer)
    (applyRequest : requestApplier) : requestProcessor :=
  fun request =>
    '(new, releaseSeq) <- captureSeq request ;;
    if negb new then Ret (false, None)
    else
      defer releaseSeq
        (err <- applyRequest request ;;
         match err with
         | Some e => Ret (false, Errorf "Failed to apply Request: " e)
         | None => Ret (true, None)
         end).

Section Applier.

(** [isPrimary] is defined in another file of the package; the applier
    is embedded over any such test. *)
Variable isPrimary : Z -> Z -> Z -> bool.

Definition makeRequestApplier (id n : Z) (view : viewProvider)
    (handleGeneratedUIMessage : generatedUIMessageHandler) : requestApplier :=
  fun request =>
    view <- view ;;
    let primary := isPrimary view id n in
    (if primary then
       let prepare :=
         {| Prepare.Msg := {| Prepare_M.View := view;
                              Prepare_M.ReplicaId := id;
                              Prepare_M.Request := request |};
            Prepare.Ui := [] |} in
       handleGeneratedUIMessage prepare
     else Ret tt) ;;
    Ret None.

End Applier.

(** Modelled from the spec: [isPrimary] is defined outside [request.go];
    the spec gives [primaryId = view mod n], and the replica is primary
    when its id is that number. *)
Definition isPrimary (view id n : Z) : bool := id =? view mod n.

Definition makeRequestReplier (provider : clientstate.Provider) : requestReplier :=
  fun request =>
    state <- provider request.(Request.Msg).(Request_M.ClientId) ;;
    clientstate.ReplyChannel state request.(Request.Msg).(Request_M.Seq).

Definition makeRequestExecutor (id : Z) (executor : operationExecutor)
    (signer : replicaMessageSigner)
    (handleGeneratedMessage : generatedMessageHandler) : requestExecutor :=
  fun request =>
    resultChan <- executor request.(Request.Msg).(Request_M.Payload) ;;
    go (result <- call (ChanRecv resultChan) ;;
        let reply :=
          {| Reply.Msg :=
               {| Reply_M.ReplicaId := id;
                  Reply_M.ClientId := request.(Request.Msg).(Request_M.ClientId);
                  Reply_M.Seq := request.(Request.Msg).(Request_M.Seq);
                  Reply_M.Result := result |};
             Reply.Signature := [] |} in
        reply <- signer reply ;;
        handleGeneratedMessage reply).

(** The [busy] flag is declared once, when the executor is made, and is
    shared by all invocations of the closure returned. *)
Definition makeOperationExecutor (consumer : api.RequestConsumer)
  : Prog operationExecutor :=
  busy <- atomic (NewUint32 0) ;;
  Ret (fun op =>
         wasBusy <- atomic (SwapUint32 busy 1) ;;
         if negb (wasBusy =? 0)
         then Panic "Concurrent operation execution detected"
         else
           resultChan <- api.Deliver consumer op ;;
           atomic (StoreUint32 busy 0) ;;
           Ret resultChan).

Definition makeRequestSeqCapturer (provideClientState : clientstate.Provider)
  : requestSeqCapturer :=
  fun request =>
    let clientID := request.(Request.Msg).(Request_M.ClientId) in
    let seq := request.(Request.Msg).(Request_M.Seq) in
    state <- provideClientState clientID ;;
    clientstate.CaptureRequestSeq state seq.

Definition makeRequestSeqPreparer (provideClientState : clientstate.Provider)
  : requestSeqPreparer :=
  fun request =>
    let clientID := request.(Request.Msg).(Request_M.ClientId) in
    let seq := request.(Request.Msg).(Request_M.Seq) in
    state <- provideClientState clientID ;;
    '(new, err) <- clientstate.PrepareRequestSeq state seq ;;
    match err with
    | Some e => Panic e
    | None => if negb new then Ret false else Ret true
    end.

Definition makeRequestSeqRetirer (provideClientState : clientstate.Provider)
  : requestSeqRetirer :=
  fun request =>
    let clientID := request.(Request.Msg).(Request_M.ClientId) in
    let seq := request.(Request.Msg).(Request_M.Seq) in
    state <- provideClientState clientID ;;
    '(new, err) <- clientstate.RetireRequestSeq state seq ;;
    match err with
    | Some e => Panic e
    | None => if negb new then Ret false else Ret true
    end.

Definition makeRequestTimerStarter (provideClientState : clientstate.Provider)
    (handleTimeout : requestTimeoutHandler) (logger : logging.Logger)
  : requestTimerStarter :=
  fun clientID view =>
    state <- provideClientState clientID ;;
    clientstate.StartRequestTimer state
      (logging.Warningf logger "Request timer expired: client=%d view=%d"
         [clientID; view] ;;
       handleTimeout view).

Definition makeRequestTimerStopper (provideClientState : clientstate.Provider)
  : requestTimerStopper :=
  fun clientID =>
    state <- provideClientState clientID ;;
    clientstate.StopRequestTimer state.

Definition makeRequestTimeoutProvider (config : api.Configer)
  : requestTimeoutProvider :=
  api.TimeoutRequest config.

(** ** The surroundings of [request.go] as external operations

    Each collaborator below does nothing but perform the external
    operation that stands for it, so that a trace shows what the closures
    of this file hand over, and in which order. *)

Definition extView : viewProvider := call ViewNow.

Definition extHandleGeneratedUIMessage : generatedUIMessageHandler :=
  fun prepare => call (HandleGeneratedUIMessage prepare).

Definition extSigner : replicaMessageSigner :=
  fun reply =>
    signature <- call (SignReply reply) ;;
    Ret {| Reply.Msg := reply.(Reply.Msg); Reply.Signature := signature |}.

Definition extHandleGeneratedMessage : generatedMessageHandler :=
  fun reply => call (HandleGeneratedMessage reply).

(** The timer armed by [StartRequestTimer] is a goroutine that runs the
    closure when (and if) the timer expires. *)
Definition extState (clientID : Z) : clientstate.State :=
  {| clientstate.CaptureRequestSeq := fun seq =>
       '(new, tok) <- call (StateCaptureRequestSeq clientID seq) ;;
       Ret (new, call (StateReleaseRequestSeq clientID tok));
     clientstate.PrepareRequestSeq := fun seq =>
       call (StatePrepareRequestSeq clientID seq);
     clientstate.RetireRequestSeq := fun seq =>
       call (StateRetireRequestSeq clientID seq);
     clientstate.StartRequestTimer := fun expired =>
       call (StateStartRequestTimer clientID) ;; go expired;
     clientstate.StopRequestTimer := call (StateStopRequestTimer clientID);
     clientstate.ReplyChannel := fun seq =>
       call (StateReplyChannel clientID seq) |}.

Definition extProvider : clientstate.Provider :=
  fun clientID => call (ProvideClientState clientID) ;; Ret (extState clientID).

(** A call of [Deliver] takes time: it is entered, and later it returns
    the result channel. *)
Definition extConsumer : api.RequestConsumer :=
  {| api.Deliver := fun op =>
       call (ConsumerDeliverEnter op) ;; call (ConsumerDeliverExit op) |}.

Definition extLogger : logging.Logger :=
  {| logging.Warningf := fun format args => call (LoggerWarningf format args) |}.

Definition extHandleTimeout : requestTimeoutHandler :=
  fun view => call (HandleTimeout view).

Definition extConfig : api.Configer :=
  {| api.TimeoutRequest := call ConfigTimeoutRequest |}.

(** ** Reading traces *)

(** Number of request timers armed in a trace. *)
Definition starts_timer (ev : event) : bool :=
  match ev with
  | EvExt (StateStartRequestTimer _) _ => true
  | _ => false
  end.

Definition timer_starts (tr : list event) : nat :=
  List.length (filter starts_timer tr).

(** Calls of [RequestConsumer.Deliver] entered and not yet returned. *)
Definition deliver_delta (ev : event) : Z :=
  match ev with
  | EvExt (ConsumerDeliverEnter _) _ => 1
  | EvExt (ConsumerDeliverExit _) _ => -1
  | _ => 0
  end.

Definition in_progress (tr : list event) : Z :=
  fold_right (fun ev n => deliver_delta ev + n) 0 tr.

(** Result channels handed out by [Deliver] from which nothing has been
    received yet: delivered operations whose result is outstanding. *)
Fixpoint remove_chan (c : chan) (l : list chan) : list chan :=
  match l with
  | [] => []
  | c' :: t => if Nat.eqb c c' then remove_chan c t else c' :: remove_chan c t
  end.

Definition awaited_step (pending : list chan) (ev : event) : list chan :=
  match ev with
  | EvExt (ConsumerDeliverExit _) c => (pending ++ [c])%list
  | EvExt (ChanRecv c) _ => remove_chan c pending
  | _ => pending
  end.

Definition awaited (tr : list event) : list chan :=
  fold_left awaited_step tr [].

(** Largest number of results outstanding at the moment a call of
    [Deliver] is entered, over the whole trace. *)
Fixpoint max_awaited_at_deliver (pending : list chan) (tr : list event) : nat :=
  match tr with
  | [] => O
  | ev :: t =>
      let here :=
        match ev with
        | EvExt (ConsumerDeliverEnter _) _ => List.length pending
        | _ => O
        end in
      Nat.max here (max_awaited_at_deliver (awaited_step pending ev) t)
  end.

(** Every call of [Deliver] is entered when no delivered operation still
    awaits its result. *)
Definition delivers_one_at_a_time (tr : list event) : Prop :=
  max_awaited_at_deliver [] tr = O.

(** ** The guard of the operation executor, goroutine by goroutine

    The closure returned by [makeOperationExecutor] with its flag named,
    the places where a goroutine that invokes it can stand, and what
    holds of a pool of such goroutines however they take turns. *)

(** The closure returned by [makeOperationExecutor], with the address of
    its flag made explicit. *)
Definition guardedBy (busy : cell) (consumer : api.RequestConsumer)
  : operationExecutor :=
  fun op =>
    wasBusy <- atomic (SwapUint32 busy 1) ;;
    if negb (wasBusy =? 0)
    then Panic "Concurrent operation execution detected"
    else
      resultChan <- api.Deliver consumer op ;;
      atomic (StoreUint32 busy 0) ;;
      Ret resultChan.

(** A program that neither touches the heap nor calls the consumer. *)
Definition calls_deliver {X} (e : Ext X) : bool :=
  match e with
  | ConsumerDeliverEnter _ => true
  | ConsumerDeliverExit _ => true
  | _ => false
  end.

Fixpoint quiet {R : Type} (p : Prog R) : Prop :=
  match p with
  | Ret _ => True
  | Panic _ => True
  | Atomic _ _ => False
  | Call e k => calls_deliver e = false /\ forall x, quiet (k x)
  | Go f k => quiet f /\ quiet k
  end.

(** Where a goroutine that invokes the operation executor stands. *)
Inductive phase := AtSwap | AtEnter | AtExit | AtStore | Outside.

Definition fits (busy : cell) (ph : phase) (p : Prog unit) : Prop :=
  match ph with
  | AtSwap =>
      exists op (K : chan -> Prog unit),
        (forall c, quiet (K c)) /\
        p = bind (guardedBy busy extConsumer op) K
  | AtEnter =>
      exists op (K : chan -> Prog unit),
        (forall c, quiet (K c)) /\
        p = Call (ConsumerDeliverEnter op) (fun _ =>
            Call (ConsumerDeliverExit op) (fun c =>
            Atomic (StoreUint32 busy 0) (fun _ => K c)))
  | AtExit =>
      exists op (K : chan -> Prog unit),
        (forall c, quiet (K c)) /\
        p = Call (ConsumerDeliverExit op) (fun c =>
            Atomic (StoreUint32 busy 0) (fun _ => K c))
  | AtStore =>
      exists k : unit -> Prog unit,
        (forall u, quiet (k u)) /\
        p = Atomic (StoreUint32 busy 0) k
  | Outside => quiet p
  end.

Definition holds_flag (ph : phase) : Z :=
  match ph with
  | AtEnter | AtExit | AtStore => 1
  | AtSwap | Outside => 0
  end.

Definition in_deliver (ph : phase) : Z :=
  match ph with
  | AtExit => 1
  | _ => 0
  end.

Fixpoint total (f : phase -> Z) (l : list phase) : Z :=
  match l with
  | [] => 0
  | ph :: t => f ph + total f t
  end.

Definition guarded_pool {S} (busy : cell) (c : pool S) : Prop :=
  (busy < List.length (pmem c))%nat /\
  exists phases,
    Forall2 (fits busy) phases (threads c) /\
    nth busy (pmem c) 0 = total holds_flag phases /\
    total holds_flag phases <= 1 /\
    in_progress (plog c) = total in_deliver phases.

(** ** A sample environment

    One client, whose sequence numbers go through capture, prepare and
    retire in increasing order; a host that hands out fresh result
    channels and answers every operation with the bytes of [X]. *)
Record sample := Sample {
  view_now : Z;
  lastCaptured : Z;
  lastPrepared : Z;
  lastRetired : Z;
  next_chan : nat }.

Definition sample_handle (X : Type) (e : Ext X) (s : sample) : X * sample :=
  match e in Ext X return X * sample with
  | ChanRecv _ => ([x58], s)
  | ConsumerDeliverEnter _ => (tt, s)
  | ConsumerDeliverExit _ =>
      (s.(next_chan),
       Sample s.(view_now) s.(lastCaptured) s.(lastPrepared) s.(lastRetired)
              (Datatypes.S s.(next_chan)))
  | ViewNow => (s.(view_now), s)
  | HandleGeneratedUIMessage _ => (tt, s)
  | SignReply _ => ([x53; x49; x47], s)
  | HandleGeneratedMessage _ => (tt, s)
  | ProvideClientState _ => (tt, s)
  | StateCaptureRequestSeq _ seq =>
      if s.(lastCaptured) <? seq
      then ((true, O),
            Sample s.(view_now) seq s.(lastPrepared) s.(lastRetired) s.(next_chan))
      else ((false, O), s)
  | StateReleaseRequestSeq _ _ => (tt, s)
  | StatePrepareRequestSeq _ seq =>
      if s.(lastCaptured) <? seq
      then ((false, Some "request ID is not captured"%string), s)
      else if s.(lastPrepared) <? seq
      then ((true, None),
            Sample s.(view_now) s.(lastCaptured) seq s.(lastRetired) s.(next_chan))
      else ((false, None), s)
  | StateRetireRequestSeq _ seq =>
      if s.(lastPrepared) <? seq
      then ((false, Some "request ID is not prepared"%string), s)
      else if s.(lastRetired) <? seq
      then ((true, None),
            Sample s.(view_now) s.(lastCaptured) s.(lastPrepared) seq s.(next_chan))
      else ((false, None), s)
  | StateStartRequestTimer _ => (tt, s)
  | StateStopRequestTimer _ => (tt, s)
  | StateReplyChannel _ _ => (O, s)
  | LoggerWarningf _ _ => (tt, s)
  | HandleTimeout _ => (tt, s)
  | ConfigTimeoutRequest => (2000, s)
  end.

(** A replica that has seen nothing yet, in view 0. *)
Definition sample0 : world sample :=
  World [] (Sample 0 0 0 0 O).

(** [Request{clientId=7, seq=1, payload="x"}] *)
Definition request1 : Request.t :=
  {| Request.Msg := {| Request_M.ClientId := 7; Request_M.Seq := 1;
                       Request_M.Payload := [x78] |};
     Request.Signature := [] |}.

(** [Request{clientId=7, seq=2, payload="y"}] *)
Definition request2 : Request.t :=
  {| Request.Msg := {| Request_M.ClientId := 7; Request_M.Seq := 2;
                       Request_M.Payload := [x79] |};
     Request.Signature := [] |}.

(** Collaborators used in the examples: the capturer of this file over
    the external client state, and the applier of replica 0 out of 3. *)
Definition sampleCapturer : requestSeqCapturer :=
  makeRequestSeqCapturer extProvider.

Definition sampleApplier : requestApplier :=
  makeRequestApplier isPrimary 0 3 extView extHandleGeneratedUIMessage.

(** An applier that fails. *)
Definition failingApplier : requestApplier :=
  fun _ => Ret (Some "no space left"%string).

(** The sample replica after it has captured sequence number 1. *)
Definition sample_seen1 : world sample :=
  World [] (Sample 0 1 0 0 O).

(** The operation executor made by the sample replica, and the world in
    which it has been made. *)
Definition sampleExecutor : operationExecutor :=
  match outcome (run sample_handle (makeOperationExecutor extConsumer) sample0) with
  | Returned executor => executor
  | Panicked v => fun _ => Panic v
  end.

Definition sample_made : world sample :=
  final (run sample_handle (makeOperationExecutor extConsumer) sample0).

Definition sampleRequestExecutor : requestExecutor :=
  makeRequestExecutor 0 sampleExecutor extSigner extHandleGeneratedMessage.

(** The replica executes [request1] and then [request2], one after the
    other; the goroutines that will receive the results have not run. *)
Definition twoExecutions : result sample unit :=
  run sample_handle
      (sampleRequestExecutor request1 ;; sampleRequestExecutor request2)
      sample_made.

(** ** Callers and further trace readers *)

(** A caller that serialises: it executes the requests one after the
    other in its own goroutine. *)
Definition executeAll (execute : requestExecutor) (requests : list Request.t)
  : Prog unit :=
  fold_right (fun request rest => execute request ;; rest) (Ret tt) requests.

(** The operations handed to [Deliver], in the order of the calls. *)
Fixpoint delivered_ops (tr : list event) : list bytes :=
  match tr with
  | [] => []
  | EvExt (ConsumerDeliverEnter op) _ :: t => op :: delivered_ops t
  | _ :: t => delivered_ops t
  end.

(** Number of events of a kind in a trace. *)
Definition count_events (kind : event -> bool) (tr : list event) : nat :=
  List.length (filter kind tr).

Definition is_release (ev : event) : bool :=
  match ev with
  | EvExt (StateReleaseRequestSeq _ _) _ => true
  | _ => false
  end.

Definition is_deliver_enter (ev : event) : bool :=
  match ev with
  | EvExt (ConsumerDeliverEnter _) _ => true
  | _ => false
  end.

Definition is_deliver_exit (ev : event) : bool :=
  match ev with
  | EvExt (ConsumerDeliverExit _) _ => true
  | _ => false
  end.

Definition is_reply_handed (ev : event) : bool :=
  match ev with
  | EvExt (HandleGeneratedMessage _) _ => true
  | _ => false
  end.

(** A consumer whose [Deliver] panics. *)
Definition panickingConsumer : api.RequestConsumer :=
  {| api.Deliver := fun _ => Panic "state machine failure" |}.

(** An applier that panics. *)
Definition panickingApplier : requestApplier :=
  fun _ => Panic "applier failure".

(** ** The life of an execution, goroutine by goroutine *)

(** The goroutine created by the request executor, with the request and
    the result channel named. *)
Definition replierOf (id : Z) (signer : replicaMessageSigner)
    (handleGeneratedMessage : generatedMessageHandler)
    (request : Request.t) (resultChan : chan) : Prog unit :=
  result <- call (ChanRecv resultChan) ;;
  let reply :=
    {| Reply.Msg :=
         {| Reply_M.ReplicaId := id;
            Reply_M.ClientId := request.(Request.Msg).(Request_M.ClientId);
            Reply_M.Seq := request.(Request.Msg).(Request_M.Seq);
            Reply_M.Result := result |};
       Reply.Signature := [] |} in
  reply <- signer reply ;;
  handleGeneratedMessage reply.

(** Where a goroutine stands: the goroutine that executes a request
    (waiting at the guard, entering [Deliver], inside [Deliver], clearing
    the flag, creating the replier, finished, refused by the guard) and
    the replier it creates (receiving the result, having it signed,
    handing the Reply over, done). *)
Inductive stage : Type :=
| Waiting (request : Request.t)
| Entering (request : Request.t)
| Delivering (request : Request.t)
| Clearing (request : Request.t) (resultChan : chan)
| Spawning (request : Request.t) (resultChan : chan)
| Finished
| Refused
| Receiving (request : Request.t) (resultChan : chan)
| Signing (request : Request.t) (result : bytes)
| Handing (reply : Reply.t)
| Replied.

Section Stages.

Variable busy : cell.
Variable id : Z.

Definition stage_prog (st : stage) : Prog unit :=
  match st with
  | Waiting request =>
      makeRequestExecutor id (guardedBy busy extConsumer) extSigner
        extHandleGeneratedMessage request
  | Entering request =>
      let op := request.(Request.Msg).(Request_M.Payload) in
      Call (ConsumerDeliverEnter op) (fun _ =>
      Call (ConsumerDeliverExit op) (fun resultChan =>
      Atomic (StoreUint32 busy 0) (fun _ =>
      go (replierOf id extSigner extHandleGeneratedMessage request resultChan))))
  | Delivering request =>
      let op := request.(Request.Msg).(Request_M.Payload) in
      Call (ConsumerDeliverExit op) (fun resultChan =>
      Atomic (StoreUint32 busy 0) (fun _ =>
      go (replierOf id extSigner extHandleGeneratedMessage request resultChan)))
  | Clearing request resultChan =>
      Atomic (StoreUint32 busy 0) (fun _ =>
      go (replierOf id extSigner extHandleGeneratedMessage request resultChan))
  | Spawning request resultChan =>
      go (replierOf id extSigner extHandleGeneratedMessage request resultChan)
  | Finished => Ret tt
  | Refused => Panic "Concurrent operation execution detected"
  | Receiving request resultChan =>
      replierOf id extSigner extHandleGeneratedMessage request resultChan
  | Signing request result =>
      reply <- extSigner
                 {| Reply.Msg :=
                      {| Reply_M.ReplicaId := id;
                         Reply_M.ClientId :=
                           request.(Request.Msg).(Request_M.ClientId);
                         Reply_M.Seq := request.(Request.Msg).(Request_M.Seq);
                         Reply_M.Result := result |};
                    Reply.Signature := [] |} ;;
      extHandleGeneratedMessage reply
  | Handing reply => extHandleGeneratedMessage reply
  | Replied => Ret tt
  end.

(** A Reply of this replica to one of the requests. *)
Definition reply_to (requests : list Request.t) (reply : Reply.t) : Prop :=
  reply.(Reply.Msg).(Reply_M.ReplicaId) = id /\
  exists request,
    In request requests /\
    reply.(Reply.Msg).(Reply_M.ClientId) =
    request.(Request.Msg).(Request_M.ClientId) /\
    reply.(Reply.Msg).(Reply_M.Seq) = request.(Request.Msg).(Request_M.Seq).

Definition stage_of (requests : list Request.t) (st : stage) : Prop :=
  match st with
  | Waiting request | Entering request | Delivering request
  | Clearing request _ | Spawning request _
  | Receiving request _ | Signing request _ => In request requests
  | Handing reply => reply_to requests reply
  | Finished | Refused | Replied => True
  end.

Definition replies_of (requests : list Request.t) (ev : event) : Prop :=
  match ev with
  | EvExt (SignReply reply) _ => reply_to requests reply
  | EvExt (HandleGeneratedMessage reply) _ => reply_to requests reply
  | _ => True
  end.

End Stages.

(** What is counted over the goroutines. *)
Definition is_executing (st : stage) : nat :=
  match st with
  | Waiting _ | Entering _ | Delivering _ | Clearing _ _ | Spawning _ _
  | Finished | Refused => 1
  | _ => 0
  end.

Definition has_entered (st : stage) : nat :=
  match st with
  | Delivering _ | Clearing _ _ | Spawning _ _ | Finished => 1
  | _ => 0
  end.

Definition has_delivered (st : stage) : nat :=
  match st with
  | Clearing _ _ | Spawning _ _ | Finished => 1
  | _ => 0
  end.

Definition has_finished (st : stage) : nat :=
  match st with
  | Finished => 1
  | _ => 0
  end.

Definition is_replier (st : stage) : nat :=
  match st with
  | Receiving _ _ | Signing _ _ | Handing _ | Replied => 1
  | _ => 0
  end.

Definition has_replied (st : stage) : nat :=
  match st with
  | Replied => 1
  | _ => 0
  end.

Fixpoint tally (f : stage -> nat) (l : list stage) : nat :=
  match l with
  | [] => O
  | st :: t => (f st + tally f t)%nat
  end.

Definition tracked_pool {S} (busy : cell) (id : Z) (requests : list Request.t)
    (c : pool S) : Prop :=
  exists stages,
    threads c = map (stage_prog busy id) stages /\
    Forall (stage_of id requests) stages /\
    Forall (replies_of id requests) (plog c) /\
    tally is_executing stages = List.length requests /\
    count_events is_deliver_enter (plog c) = tally has_entered stages /\
    count_events is_deliver_exit (plog c) = tally has_delivered stages /\
    tally is_replier stages = tally has_finished stages /\
    count_events is_reply_handed (plog c) = tally has_replied stages.

(** * Properties *)

(** ** Running a program *)

Section RunFacts.

Variable S : Type.
Variable handle : forall X, Ext X -> S -> X * S.

Lemma run_bind {A B} (p : Prog A) (k : A -> Prog B) (w : world S) :
  run handle (bind p k) w =
  match outcome (run handle p w) with
  | Returned a =>
      let r2 := run handle (k a) (final (run handle p w)) in
      then_result (run handle p w) r2 (outcome r2)
  | Panicked v => halt (run handle p w) v
  end.
Proof.
  revert B k w.
  induction p as [A a|A v|A X m c IH|A X e c IH|A f _ c IH]; intros B k w; simpl.
  - destruct (run handle (k a) w); reflexivity.
  - reflexivity.
  - rewrite IH. destruct (outcome (run handle (c _) _)); reflexivity.
  - rewrite IH. destruct (outcome (run handle (c _) _)); reflexivity.
  - rewrite IH. destruct (outcome (run handle c w)); reflexivity.
Qed.

Lemma run_defer {R} (deferred : Prog unit) (body : Prog R) (w : world S) :
  run handle (defer deferred body) w =
  let r1 := run handle body w in
  let r2 := run handle deferred (final r1) in
  then_result r1 r2
    match outcome r2 with
    | Returned _ => outcome r1
    | Panicked v => Panicked v
    end.
Proof.
  revert w.
  induction body as [R a|R v|R X m c IH|R X e c IH|R f _ c IH]; intros w; simpl.
  - rewrite run_bind.
    destruct (run handle deferred w) as [t sp [[]|v] fw];
      unfold then_result, halt; simpl; rewrite ?app_nil_r; reflexivity.
  - rewrite run_bind.
    destruct (run handle deferred w) as [t sp [[]|v'] fw];
      unfold then_result, halt; simpl; rewrite ?app_nil_r; reflexivity.
  - rewrite IH. reflexivity.
  - rewrite IH. reflexivity.
  - rewrite IH. reflexivity.
Qed.

(** The run of the request processor, by cases on what its
    collaborators do. *)
Lemma run_makeRequestProcessor captureSeq applyRequest request (w : world S) :
  run handle (makeRequestProcessor captureSeq applyRequest request) w =
  let rc := run handle (captureSeq request) w in
  match outcome rc with
  | Panicked v => halt rc v
  | Returned (false, _) =>
      Result (trace rc) (spawned rc) (Returned (false, None)) (final rc)
  | Returned (true, releaseSeq) =>
      let ra := run handle (applyRequest request) (final rc) in
      let rr := run handle releaseSeq (final ra) in
      Result (trace rc ++ trace ra ++ trace rr)
             (spawned rc ++ spawned ra ++ spawned rr)
             match outcome rr, outcome ra with
             | Panicked v, _ => Panicked v
             | Returned _, Panicked v => Panicked v
             | Returned _, Returned (Some e) =>
                 Returned (false, Errorf "Failed to apply Request: " e)
             | Returned _, Returned None => Returned (true, None)
             end
             (final rr)
  end.
Proof.
  unfold makeRequestProcessor. rewrite run_bind.
  destruct (run handle (captureSeq request) w) as [tc sc [[[|] rel]|v] wc]; simpl.
  - rewrite run_defer, run_bind. simpl.
    destruct (run handle (applyRequest request) wc) as [ta sa [[e|]|v] wa]; simpl;
      unfold then_result, halt; simpl; rewrite ?app_nil_r;
      destruct (run handle rel wa) as [tr sr [[]|v'] wr]; reflexivity.
  - unfold then_result; simpl. rewrite !app_nil_r. reflexivity.
  - reflexivity.
Qed.

(** The run of the request applier, by cases on what its collaborators
    do. *)
Lemma run_makeRequestApplier isPrimary' id n view handleGeneratedUIMessage
    request (w : world S) :
  run handle
    (makeRequestApplier isPrimary' id n view handleGeneratedUIMessage request) w =
  let rv := run handle view w in
  match outcome rv with
  | Panicked x => halt rv x
  | Returned v =>
      if isPrimary' v id n then
        let rh :=
          run handle
            (handleGeneratedUIMessage
               {| Prepare.Msg := {| Prepare_M.View := v;
                                    Prepare_M.ReplicaId := id;
                                    Prepare_M.Request := request |};
                  Prepare.Ui := [] |})
            (final rv) in
        then_result rv rh
          match outcome rh with
          | Returned _ => Returned None
          | Panicked x => Panicked x
          end
      else Result (trace rv) (spawned rv) (Returned None) (final rv)
  end.
Proof.
  unfold makeRequestApplier. rewrite run_bind.
  destruct (run handle view w) as [tv sv [v|x] wv]; simpl; [|reflexivity].
  rewrite run_bind.
  destruct (isPrimary' v id n); simpl.
  - destruct (run handle (handleGeneratedUIMessage _) wv) as [th sh [[]|x] wh];
      unfold then_result, halt; simpl; rewrite ?app_nil_r; reflexivity.
  - unfold then_result; simpl. rewrite !app_nil_r. reflexivity.
Qed.

Lemma timer_starts_app (t1 t2 : list event) :
  timer_starts (t1 ++ t2) = (timer_starts t1 + timer_starts t2)%nat.
Proof.
  unfold timer_starts. rewrite filter_app, length_app. reflexivity.
Qed.

End RunFacts.

(** ** The request processor *)

(** C1: the request processor starts with [captureSeq]; when that reports
    the sequence as not new, the processor returns [(false, nil)] and its
    whole run is the run of [captureSeq] (whatever the applier is: it is
    not invoked, nothing else happens); when it reports new, the applier
    runs after the capture and before the release function, and when it
    returns [nil] (and the release returns) the processor returns
    [(true, nil)]. *)
Theorem processor_captures_then_applies :
  forall (S : Type) (handle : forall X, Ext X -> S -> X * S)
         (captureSeq : requestSeqCapturer) (applyRequest : requestApplier)
         (request : Request.t) (w : world S),
    let rc := run handle (captureSeq request) w in
    let rp := run handle (makeRequestProcessor captureSeq applyRequest request) w in
    (forall releaseSeq,
        outcome rc = Returned (false, releaseSeq) ->
        rp = Result (trace rc) (spawned rc) (Returned (false, None)) (final rc))
    /\
    (forall releaseSeq,
        outcome rc = Returned (true, releaseSeq) ->
        let ra := run handle (applyRequest request) (final rc) in
        let rr := run handle releaseSeq (final ra) in
        trace rp = (trace rc ++ trace ra ++ trace rr)%list /\
        (outcome ra = Returned None ->
         outcome rr = Returned tt ->
         outcome rp = Returned (true, None))).
Proof.
  intros S handle captureSeq applyRequest request w rc rp.
  subst rc rp. rewrite run_makeRequestProcessor. simpl.
  split; intros releaseSeq Hc; rewrite Hc.
  - reflexivity.
  - simpl. split; [reflexivity|].
    intros Ha Hr. rewrite Ha, Hr. reflexivity.
Qed.

Lemma processor_captures_then_applies_witness :
  run sample_handle (makeRequestProcessor sampleCapturer sampleApplier request1)
      sample_seen1 =
  Result [EvExt (ProvideClientState 7) tt;
          EvExt (StateCaptureRequestSeq 7 1) (false, O)]
         [] (Returned (false, None)) sample_seen1
  /\
  (trace (run sample_handle
            (makeRequestProcessor sampleCapturer sampleApplier request1) sample0) =
   [EvExt (ProvideClientState 7) tt;
    EvExt (StateCaptureRequestSeq 7 1) (true, O);
    EvExt ViewNow 0;
    EvExt (HandleGeneratedUIMessage
             {| Prepare.Msg := {| Prepare_M.View := 0; Prepare_M.ReplicaId := 0;
                                  Prepare_M.Request := request1 |};
                Prepare.Ui := [] |}) tt;
    EvExt (StateReleaseRequestSeq 7 O) tt]
   /\
   outcome (run sample_handle
              (makeRequestProcessor sampleCapturer sampleApplier request1) sample0) =
   Returned (true, None)).
Proof.
  split.
  - exact (proj1 (processor_captures_then_applies sample_handle sampleCapturer
                    sampleApplier request1 sample_seen1)
                 (call (StateReleaseRequestSeq 7 O)) eq_refl).
  - destruct (proj2 (processor_captures_then_applies sample_handle sampleCapturer
                       sampleApplier request1 sample0)
                    (call (StateReleaseRequestSeq 7 O)) eq_refl) as [Htrace Hout].
    split.
    + exact Htrace.
    + exact (Hout eq_refl eq_refl).
Defined.

(** C9: when [captureSeq] reports new and the applier returns an error,
    the release function is still invoked, after the applier, and the
    processor returns [false] with an error whose text is the applier's
    error after the words "Failed to apply Request: "; the flag returned
    is the one returned for a duplicate. *)
Theorem processor_releases_on_apply_error :
  forall (S : Type) (handle : forall X, Ext X -> S -> X * S)
         (captureSeq : requestSeqCapturer) (applyRequest : requestApplier)
         (request : Request.t) (w : world S)
         (releaseSeq : Prog unit) (e : string),
    let rc := run handle (captureSeq request) w in
    let ra := run handle (applyRequest request) (final rc) in
    let rr := run handle releaseSeq (final ra) in
    outcome rc = Returned (true, releaseSeq) ->
    outcome ra = Returned (Some e) ->
    outcome rr = Returned tt ->
    run handle (makeRequestProcessor captureSeq applyRequest request) w =
    Result (trace rc ++ trace ra ++ trace rr)
           (spawned rc ++ spawned ra ++ spawned rr)
           (Returned (false, Some ("Failed to apply Request: " ++ e)%string))
           (final rr)
    /\
    (forall (captureSeq' : requestSeqCapturer) (w' : world S) releaseSeq',
        outcome (run handle (captureSeq' request) w') =
        Returned (false, releaseSeq') ->
        exists err,
          outcome (run handle
                     (makeRequestProcessor captureSeq' applyRequest request) w') =
          Returned (false, err)).
Proof.
  intros S handle captureSeq applyRequest request w releaseSeq e rc ra rr Hc Ha Hr.
  split.
  - rewrite run_makeRequestProcessor. simpl. fold rc. rewrite Hc.
    fold ra. fold rr. rewrite Ha, Hr. reflexivity.
  - intros captureSeq' w' releaseSeq' Hc'.
    exists None. rewrite run_makeRequestProcessor. simpl. rewrite Hc'.
    reflexivity.
Qed.

Lemma processor_releases_on_apply_error_witness :
  run sample_handle (makeRequestProcessor sampleCapturer failingApplier request1)
      sample0 =
  Result [EvExt (ProvideClientState 7) tt;
          EvExt (StateCaptureRequestSeq 7 1) (true, O);
          EvExt (StateReleaseRequestSeq 7 O) tt]
         []
         (Returned (false, Some "Failed to apply Request: no space left"%string))
         sample_seen1.
Proof.
  exact (proj1 (processor_releases_on_apply_error sample_handle sampleCapturer
                  failingApplier request1 sample0
                  (releaseSeq := call (StateReleaseRequestSeq 7 O))
                  (e := "no space left"%string)
                  eq_refl eq_refl eq_refl)).
Defined.

(** ** The request applier *)

(** C2: the applier reads the view; exactly when the replica's id is
    [view mod n] it hands to the generated-UI-message handler a Prepare
    made of that view, its own id and the request, and its run is the
    reading of the view followed by the handler's run; otherwise its run
    is the reading of the view alone.  It returns [nil] in both cases
    (on the primary, once the handler has returned).  The number of
    replicas [n] is positive: Go does not define [view % 0]. *)
Theorem applier_prepares_when_primary :
  forall (S : Type) (handle : forall X, Ext X -> S -> X * S)
         (id n : Z) (view : viewProvider)
         (handleGeneratedUIMessage : generatedUIMessageHandler)
         (request : Request.t) (w : world S) (v : Z),
    0 < n ->
    outcome (run handle view w) = Returned v ->
    let rv := run handle view w in
    let ra :=
      run handle
        (makeRequestApplier isPrimary id n view handleGeneratedUIMessage request)
        w in
    let prepare :=
      {| Prepare.Msg := {| Prepare_M.View := v; Prepare_M.ReplicaId := id;
                           Prepare_M.Request := request |};
         Prepare.Ui := [] |} in
    (id = v mod n ->
     let rh := run handle (handleGeneratedUIMessage prepare) (final rv) in
     trace ra = (trace rv ++ trace rh)%list /\
     spawned ra = (spawned rv ++ spawned rh)%list /\
     final ra = final rh /\
     (forall u, outcome rh = Returned u -> outcome ra = Returned None))
    /\
    (id <> v mod n ->
     ra = Result (trace rv) (spawned rv) (Returned None) (final rv)).
Proof.
  intros S handle id n view handleUI request w v Hn Hv rv ra prepare.
  subst rv ra prepare. rewrite run_makeRequestApplier. simpl. rewrite Hv.
  unfold isPrimary. split; intros Hid.
  - apply Z.eqb_eq in Hid. rewrite Hid. simpl.
    repeat split. intros u Hu. rewrite Hu. reflexivity.
  - apply Z.eqb_neq in Hid. rewrite Hid. reflexivity.
Qed.

(** Replica 1 of 3 is the primary of view 4, replica 2 is not. *)
Lemma applier_prepares_when_primary_witness :
  let w4 := World [] (Sample 4 0 0 0 O) in
  (trace (run sample_handle
            (makeRequestApplier isPrimary 1 3 extView
               extHandleGeneratedUIMessage request1) w4) =
   [EvExt ViewNow 4;
    EvExt (HandleGeneratedUIMessage
             {| Prepare.Msg := {| Prepare_M.View := 4; Prepare_M.ReplicaId := 1;
                                  Prepare_M.Request := request1 |};
                Prepare.Ui := [] |}) tt]
   /\
   outcome (run sample_handle
              (makeRequestApplier isPrimary 1 3 extView
                 extHandleGeneratedUIMessage request1) w4) = Returned None)
  /\
  run sample_handle
      (makeRequestApplier isPrimary 2 3 extView
         extHandleGeneratedUIMessage request1) w4 =
  Result [EvExt ViewNow 4] [] (Returned None) w4.
Proof.
  intros w4. split.
  - destruct (proj1 (@applier_prepares_when_primary sample sample_handle 1 3
                       extView extHandleGeneratedUIMessage request1 w4 4
                       eq_refl eq_refl) eq_refl)
      as [Htrace [_ [_ Hout]]].
    split.
    + exact Htrace.
    + exact (Hout tt eq_refl).
  - apply (proj2 (@applier_prepares_when_primary sample sample_handle 2 3
                    extView extHandleGeneratedUIMessage request1 w4 4
                    eq_refl eq_refl)).
    discriminate.
Defined.

(** C8: the applier arms no request timer.  Its trace is made of what
    reading the view and handing the Prepare over do, so when neither of
    these arms a timer, applying a request (on the primary as on a
    backup) arms none. *)
Theorem applier_starts_no_timer :
  forall (S : Type) (handle : forall X, Ext X -> S -> X * S)
         (isPrimary' : Z -> Z -> Z -> bool) (id n : Z) (view : viewProvider)
         (handleGeneratedUIMessage : generatedUIMessageHandler),
    (forall w, timer_starts (trace (run handle view w)) = O) ->
    (forall prepare w,
        timer_starts (trace (run handle (handleGeneratedUIMessage prepare) w)) = O) ->
    forall (request : Request.t) (w : world S),
      timer_starts
        (trace (run handle
                  (makeRequestApplier isPrimary' id n view
                     handleGeneratedUIMessage request) w)) = O.
Proof.
  intros S handle isP id n view handleUI Hview Hui request w.
  rewrite run_makeRequestApplier. simpl.
  specialize (Hview w).
  destruct (run handle view w) as [tv sv [v|x] wv]; simpl in *; [|exact Hview].
  destruct (isP v id n); simpl; [|exact Hview].
  rewrite timer_starts_app, Hview, Hui. reflexivity.
Qed.

Lemma applier_starts_no_timer_witness :
  timer_starts
    (trace (run sample_handle
              (makeRequestApplier isPrimary 0 3 extView
                 extHandleGeneratedUIMessage request1) sample0)) = O
  /\
  timer_starts
    (trace (run sample_handle
              (makeRequestTimerStarter extProvider extHandleTimeout extLogger 7 0)
              sample0)) = 1%nat.
Proof.
  split.
  - apply (@applier_starts_no_timer sample sample_handle isPrimary 0 3 extView
             extHandleGeneratedUIMessage).
    + intros w. reflexivity.
    + intros prepare w. reflexivity.
  - reflexivity.
Defined.

(** C10: the applier never returns an error: when its collaborators
    return, it returns [nil] for every request, on the primary as on a
    backup.  Hence the processor wired with it returns [(true, nil)]
    whenever [captureSeq] reports the sequence as new. *)
Theorem applier_returns_nil :
  forall (S : Type) (handle : forall X, Ext X -> S -> X * S)
         (isPrimary' : Z -> Z -> Z -> bool) (id n : Z) (view : viewProvider)
         (handleGeneratedUIMessage : generatedUIMessageHandler)
         (captureSeq : requestSeqCapturer) (request : Request.t) (w : world S)
         (releaseSeq : Prog unit),
    (forall w', exists v, outcome (run handle view w') = Returned v) ->
    (forall prepare w',
        outcome (run handle (handleGeneratedUIMessage prepare) w') = Returned tt) ->
    (forall w', outcome (run handle releaseSeq w') = Returned tt) ->
    outcome (run handle (captureSeq request) w) = Returned (true, releaseSeq) ->
    let applyRequest :=
      makeRequestApplier isPrimary' id n view handleGeneratedUIMessage in
    (forall request' w',
        outcome (run handle (applyRequest request') w') = Returned None)
    /\
    outcome (run handle (makeRequestProcessor captureSeq applyRequest request) w) =
    Returned (true, None).
Proof.
  intros S handle isP id n view handleUI captureSeq request w releaseSeq
         Hview Hui Hrel Hc applyRequest.
  assert (Happly : forall request' w',
             outcome (run handle (applyRequest request') w') = Returned None).
  { intros request' w'. unfold applyRequest.
    rewrite run_makeRequestApplier. simpl.
    destruct (Hview w') as [v Hv].
    destruct (run handle view w') as [tv sv ov wv]; simpl in *. subst ov.
    destruct (isP v id n); simpl; [|reflexivity].
    rewrite Hui. reflexivity. }
  split; [exact Happly|].
  rewrite run_makeRequestProcessor. simpl. rewrite Hc.
  simpl. rewrite Happly, Hrel. reflexivity.
Qed.

Lemma applier_returns_nil_witness :
  (forall request' w',
      outcome (run sample_handle (sampleApplier request') w') = Returned None)
  /\
  outcome (run sample_handle
             (makeRequestProcessor sampleCapturer sampleApplier request1) sample0) =
  Returned (true, None).
Proof.
  apply (@applier_returns_nil sample sample_handle isPrimary 0 3 extView
           extHandleGeneratedUIMessage sampleCapturer request1 sample0
           (call (StateReleaseRequestSeq 7 O))).
  - intros w'. eexists. reflexivity.
  - intros prepare w'. reflexivity.
  - intros w'. reflexivity.
  - reflexivity.
Defined.

(** ** Preparing and retiring sequence numbers *)

(** C5: once the provider has returned the client's state, the preparer
    panics with the error exactly when [PrepareRequestSeq] reports one,
    and returns the flag [new] when it reports none; the retirer does the
    same with [RetireRequestSeq]. *)
Theorem seq_preparer_retirer_panic_on_error :
  forall (S : Type) (handle : forall X, Ext X -> S -> X * S)
         (provideClientState : clientstate.Provider)
         (request : Request.t) (w : world S) (state : clientstate.State),
    let clientID := request.(Request.Msg).(Request_M.ClientId) in
    let seq := request.(Request.Msg).(Request_M.Seq) in
    let rs := run handle (provideClientState clientID) w in
    outcome rs = Returned state ->
    (forall new err,
        outcome (run handle (clientstate.PrepareRequestSeq state seq) (final rs)) =
        Returned (new, err) ->
        outcome (run handle (makeRequestSeqPreparer provideClientState request) w) =
        match err with
        | Some e => Panicked e
        | None => Returned new
        end)
    /\
    (forall new err,
        outcome (run handle (clientstate.RetireRequestSeq state seq) (final rs)) =
        Returned (new, err) ->
        outcome (run handle (makeRequestSeqRetirer provideClientState request) w) =
        match err with
        | Some e => Panicked e
        | None => Returned new
        end).
Proof.
  intros S handle provide request w state clientID seq rs Hs.
  split; intros new err Hm.
  - unfold makeRequestSeqPreparer. fold clientID. fold seq.
    rewrite run_bind. fold rs. rewrite Hs. simpl.
    rewrite run_bind. rewrite Hm. simpl.
    destruct err as [e|]; [reflexivity|]. destruct new; reflexivity.
  - unfold makeRequestSeqRetirer. fold clientID. fold seq.
    rewrite run_bind. fold rs. rewrite Hs. simpl.
    rewrite run_bind. rewrite Hm. simpl.
    destruct err as [e|]; [reflexivity|]. destruct new; reflexivity.
Qed.

(** Sequence number 1 prepared before it is captured, prepared once
    captured, and retired before it is prepared. *)
Lemma seq_preparer_retirer_panic_on_error_witness :
  outcome (run sample_handle (makeRequestSeqPreparer extProvider request1) sample0) =
  Panicked "request ID is not captured"
  /\
  outcome (run sample_handle (makeRequestSeqPreparer extProvider request1)
             sample_seen1) = Returned true
  /\
  outcome (run sample_handle (makeRequestSeqRetirer extProvider request1)
             sample_seen1) = Panicked "request ID is not prepared".
Proof.
  split; [|split].
  - exact (proj1 (@seq_preparer_retirer_panic_on_error sample sample_handle
                    extProvider request1 sample0 (extState 7) eq_refl)
                 false (Some "request ID is not captured"%string) eq_refl).
  - exact (proj1 (@seq_preparer_retirer_panic_on_error sample sample_handle
                    extProvider request1 sample_seen1 (extState 7) eq_refl)
                 true None eq_refl).
  - exact (proj2 (@seq_preparer_retirer_panic_on_error sample sample_handle
                    extProvider request1 sample_seen1 (extState 7) eq_refl)
                 false (Some "request ID is not prepared"%string) eq_refl).
Defined.

(** ** The request timer *)

(** C6: starting the timer for [clientID] in [view] hands the client's
    state a closure that, whenever it is run (the timer has expired),
    logs the warning with [clientID] and [view] and then calls the
    timeout handler with that same [view], whatever the world is then. *)
Theorem timer_expiry_reports_armed_view :
  forall (S : Type) (handle : forall X, Ext X -> S -> X * S)
         (provideClientState : clientstate.Provider)
         (handleTimeout : requestTimeoutHandler) (logger : logging.Logger)
         (clientID view : Z) (w : world S) (state : clientstate.State),
    let rs := run handle (provideClientState clientID) w in
    outcome rs = Returned state ->
    exists expired : Prog unit,
      run handle
        (makeRequestTimerStarter provideClientState handleTimeout logger
           clientID view) w =
      (let rt := run handle (clientstate.StartRequestTimer state expired) (final rs) in
       then_result rs rt (outcome rt))
      /\
      forall w' : world S,
        let rl :=
          run handle
            (logging.Warningf logger "Request timer expired: client=%d view=%d"
               [clientID; view]) w' in
        run handle expired w' =
        match outcome rl with
        | Returned _ =>
            let rh := run handle (handleTimeout view) (final rl) in
            then_result rl rh (outcome rh)
        | Panicked x => halt rl x
        end.
Proof.
  intros S handle provide handleTimeout logger clientID view w state rs Hs.
  eexists. split.
  - unfold makeRequestTimerStarter. rewrite run_bind. fold rs. rewrite Hs.
    reflexivity.
  - intros w'. simpl. rewrite run_bind. reflexivity.
Qed.

(** Armed in view 0 for client 7, expired when the view is 5. *)
Lemma timer_expiry_reports_armed_view_witness :
  exists expired : Prog unit,
    run sample_handle
        (makeRequestTimerStarter extProvider extHandleTimeout extLogger 7 0)
        sample0 =
    Result [EvExt (ProvideClientState 7) tt; EvExt (StateStartRequestTimer 7) tt]
           [expired] (Returned tt) sample0
    /\
    trace (run sample_handle expired (World [] (Sample 5 1 1 0 O))) =
    [EvExt (LoggerWarningf "Request timer expired: client=%d view=%d" [7; 0]) tt;
     EvExt (HandleTimeout 0) tt].
Proof.
  destruct (@timer_expiry_reports_armed_view sample sample_handle extProvider
              extHandleTimeout extLogger 7 0 sample0 (extState 7) eq_refl)
    as [expired [Hstart Hexpired]].
  exists expired. split.
  - rewrite Hstart. reflexivity.
  - rewrite Hexpired. reflexivity.
Defined.

(** ** The request executor *)

(** C7: once the operation executor has returned the result channel, the
    request executor returns, leaving one goroutine.  Whenever that
    goroutine runs, it receives the result from the channel, makes the
    Reply of the replica's id, the request's client id and sequence
    number and that result, has the signer sign it, and hands the signed
    Reply to the generated-message handler, in this order. *)
Theorem executor_replies_with_signed_result :
  forall (S : Type) (handle : forall X, Ext X -> S -> X * S)
         (id : Z) (executor : operationExecutor) (signer : replicaMessageSigner)
         (handleGeneratedMessage : generatedMessageHandler)
         (request : Request.t) (w : world S) (resultChan : chan),
    let re := run handle (executor request.(Request.Msg).(Request_M.Payload)) w in
    outcome re = Returned resultChan ->
    exists replier : Prog unit,
      run handle
        (makeRequestExecutor id executor signer handleGeneratedMessage request) w =
      Result (trace re) (spawned re ++ [replier]) (Returned tt) (final re)
      /\
      forall (w' : world S) (signed : Reply.t),
        let received := handle _ (ChanRecv resultChan) (env w') in
        let reply :=
          {| Reply.Msg :=
               {| Reply_M.ReplicaId := id;
                  Reply_M.ClientId := request.(Request.Msg).(Request_M.ClientId);
                  Reply_M.Seq := request.(Request.Msg).(Request_M.Seq);
                  Reply_M.Result := fst received |};
             Reply.Signature := [] |} in
        let rs := run handle (signer reply) (World (mem w') (snd received)) in
        outcome rs = Returned signed ->
        let rh := run handle (handleGeneratedMessage signed) (final rs) in
        run handle replier w' =
        Result (EvExt (ChanRecv resultChan) (fst received) :: trace rs ++ trace rh)
               (spawned rs ++ spawned rh) (outcome rh) (final rh).
Proof.
  intros S handle id executor signer handleGM request w resultChan re He.
  eexists. split.
  - unfold makeRequestExecutor. rewrite run_bind. fold re. rewrite He.
    simpl. unfold then_result, with_goroutine. simpl.
    rewrite app_nil_r. reflexivity.
  - intros w' signed received reply rs Hs rh. simpl.
    rewrite run_bind. fold received. fold reply. fold rs. rewrite Hs.
    reflexivity.
Qed.

Lemma executor_replies_with_signed_result_witness :
  exists replier : Prog unit,
    run sample_handle (sampleRequestExecutor request1) sample_made =
    Result [EvMem (SwapUint32 O 1) 0;
            EvExt (ConsumerDeliverEnter [x78]) tt;
            EvExt (ConsumerDeliverExit [x78]) O;
            EvMem (StoreUint32 O 0) tt]
           [replier] (Returned tt) (World [0] (Sample 0 0 0 0 1%nat))
    /\
    trace (run sample_handle replier (World [0] (Sample 0 0 0 0 1%nat))) =
    [EvExt (ChanRecv O) [x58];
     EvExt (SignReply
              {| Reply.Msg := {| Reply_M.ReplicaId := 0; Reply_M.ClientId := 7;
                                 Reply_M.Seq := 1; Reply_M.Result := [x58] |};
                 Reply.Signature := [] |}) [x53; x49; x47];
     EvExt (HandleGeneratedMessage
              {| Reply.Msg := {| Reply_M.ReplicaId := 0; Reply_M.ClientId := 7;
                                 Reply_M.Seq := 1; Reply_M.Result := [x58] |};
                 Reply.Signature := [x53; x49; x47] |}) tt].
Proof.
  destruct (@executor_replies_with_signed_result sample sample_handle 0
              sampleExecutor extSigner extHandleGeneratedMessage request1
              sample_made O eq_refl)
    as [replier [Hrun Hreply]].
  exists replier. split.
  - unfold sampleRequestExecutor. rewrite Hrun. reflexivity.
  - rewrite (Hreply (World [0] (Sample 0 0 0 0 1%nat))
               {| Reply.Msg := {| Reply_M.ReplicaId := 0; Reply_M.ClientId := 7;
                                  Reply_M.Seq := 1; Reply_M.Result := [x58] |};
                  Reply.Signature := [x53; x49; x47] |} eq_refl).
    reflexivity.
Defined.

(** ** The operation executor *)

Lemma length_heap_set (a : cell) (v : Z) (h : heap) :
  List.length (heap_set a v h) = List.length h.
Proof.
  revert a; induction h as [|x t IH]; intros [|a]; simpl; auto.
Qed.

Lemma nth_heap_set_same (a : cell) (v : Z) (h : heap) :
  (a < List.length h)%nat -> nth a (heap_set a v h) 0 = v.
Proof.
  revert a; induction h as [|x t IH]; intros [|a] Ha; simpl in *;
    try lia; auto.
  apply IH. lia.
Qed.

Lemma run_makeOperationExecutor (S : Type) (handle : forall X, Ext X -> S -> X * S)
    (consumer : api.RequestConsumer) (w0 : world S) :
  run handle (makeOperationExecutor consumer) w0 =
  Result [EvMem (NewUint32 0) (List.length (mem w0))] []
         (Returned (guardedBy (List.length (mem w0)) consumer))
         (World (mem w0 ++ [0]) (env w0)).
Proof. reflexivity. Qed.

Lemma run_guardedBy_set (S : Type) (handle : forall X, Ext X -> S -> X * S)
    (busy : cell) (consumer : api.RequestConsumer) (op : bytes) (w : world S) :
  nth busy (mem w) 0 <> 0 ->
  run handle (guardedBy busy consumer op) w =
  Result [EvMem (SwapUint32 busy 1) (nth busy (mem w) 0)] []
         (Panicked "Concurrent operation execution detected")
         (World (heap_set busy 1 (mem w)) (env w)).
Proof.
  intros Hset. apply Z.eqb_neq in Hset.
  unfold guardedBy. simpl. rewrite Hset. reflexivity.
Qed.

Lemma run_guardedBy_clear (S : Type) (handle : forall X, Ext X -> S -> X * S)
    (busy : cell) (consumer : api.RequestConsumer) (op : bytes) (w : world S)
    (resultChan : chan) :
  nth busy (mem w) 0 = 0 ->
  let rd :=
    run handle (api.Deliver consumer op)
        (World (heap_set busy 1 (mem w)) (env w)) in
  outcome rd = Returned resultChan ->
  run handle (guardedBy busy consumer op) w =
  Result (EvMem (SwapUint32 busy 1) 0 :: trace rd ++
          [EvMem (StoreUint32 busy 0) tt])
         (spawned rd) (Returned resultChan)
         (World (heap_set busy 0 (mem (final rd))) (env (final rd))).
Proof.
  intros Hclear rd Hd.
  unfold guardedBy. simpl. rewrite Hclear. simpl.
  rewrite run_bind. fold rd. rewrite Hd. simpl.
  unfold after, then_result. simpl. rewrite app_nil_r. reflexivity.
Qed.

(** C3: the executor made by [makeOperationExecutor] owns a flag that
    starts clear.  An invocation that finds the flag set panics, having
    done nothing but the swap: the consumer is not called.  An invocation
    that finds it clear sets it (so that an invocation entered before it
    is cleared panics), calls [Deliver] with the operation, clears the
    flag once [Deliver] has returned, and returns the result channel. *)
Theorem operation_executor_guard :
  forall (S : Type) (handle : forall X, Ext X -> S -> X * S)
         (consumer : api.RequestConsumer) (w0 : world S),
    let busy := List.length (mem w0) in
    let made := run handle (makeOperationExecutor consumer) w0 in
    exists executor : operationExecutor,
      outcome made = Returned executor /\
      nth busy (mem (final made)) 0 = 0 /\
      forall (op : bytes) (w : world S),
        (busy < List.length (mem w))%nat ->
        let flag := nth busy (mem w) 0 in
        let entered := World (heap_set busy 1 (mem w)) (env w) in
        (flag <> 0 ->
         run handle (executor op) w =
         Result [EvMem (SwapUint32 busy 1) flag] []
                (Panicked "Concurrent operation execution detected") entered)
        /\
        (flag = 0 ->
         (forall op',
             outcome (run handle (executor op') entered) =
             Panicked "Concurrent operation execution detected") /\
         (forall resultChan,
             let rd := run handle (api.Deliver consumer op) entered in
             outcome rd = Returned resultChan ->
             run handle (executor op) w =
             Result (EvMem (SwapUint32 busy 1) 0 :: trace rd ++
                     [EvMem (StoreUint32 busy 0) tt])
                    (spawned rd) (Returned resultChan)
                    (World (heap_set busy 0 (mem (final rd))) (env (final rd))))).
Proof.
  intros S handle consumer w0 busy made.
  exists (guardedBy busy consumer). split; [reflexivity|]. split.
  - simpl. unfold busy. rewrite nth_middle. reflexivity.
  - intros op w Hlt flag entered. split.
    + intros Hset. apply run_guardedBy_set. exact Hset.
    + intros Hclear. split.
      * intros op'. rewrite run_guardedBy_set; [reflexivity|].
        simpl. rewrite nth_heap_set_same by exact Hlt. discriminate.
      * intros resultChan rd Hd.
        apply run_guardedBy_clear; assumption.
Qed.

Lemma operation_executor_guard_witness :
  exists executor : operationExecutor,
    outcome (run sample_handle (makeOperationExecutor extConsumer) sample0) =
    Returned executor
    /\
    run sample_handle (executor [x78]) (World [1] (Sample 0 0 0 0 O)) =
    Result [EvMem (SwapUint32 O 1) 1] []
           (Panicked "Concurrent operation execution detected")
           (World [1] (Sample 0 0 0 0 O))
    /\
    run sample_handle (executor [x78]) (World [0] (Sample 0 0 0 0 O)) =
    Result [EvMem (SwapUint32 O 1) 0;
            EvExt (ConsumerDeliverEnter [x78]) tt;
            EvExt (ConsumerDeliverExit [x78]) O;
            EvMem (StoreUint32 O 0) tt]
           [] (Returned O) (World [0] (Sample 0 0 0 0 1%nat)).
Proof.
  destruct (@operation_executor_guard sample sample_handle extConsumer sample0)
    as [executor [Hmade [_ Hguard]]].
  exists executor. split; [exact Hmade|]. split.
  - apply (proj1 (Hguard [x78] (World [1] (Sample 0 0 0 0 O)) (Nat.lt_0_succ 0))).
    discriminate.
  - destruct (proj2 (Hguard [x78] (World [0] (Sample 0 0 0 0 O)) (Nat.lt_0_succ 0))
                    eq_refl) as [_ Hrun].
    exact (Hrun O eq_refl).
Defined.

Lemma quiet_bind {A B} (p : Prog A) (k : A -> Prog B) :
  quiet p -> (forall a, quiet (k a)) -> quiet (bind p k).
Proof.
  revert B k.
  induction p as [A a|A v|A X m c IH|A X e c IH|A f _ c IH];
    intros B k Hp Hk; simpl in *.
  - apply Hk.
  - exact I.
  - contradiction.
  - destruct Hp as [He Hc]. split; [exact He|].
    intros x. apply IH; [apply Hc|exact Hk].
  - destruct Hp as [Hf Hc]. split; [exact Hf|].
    apply IH; [exact Hc|exact Hk].
Qed.

Lemma total_app f l1 l2 : total f (l1 ++ l2) = total f l1 + total f l2.
Proof.
  induction l1 as [|x t IH]; cbn [total app]; [reflexivity|].
  rewrite IH. lia.
Qed.

Lemma total_bounds l :
  0 <= total in_deliver l <= total holds_flag l.
Proof.
  induction l as [|ph t IH]; cbn [total]; [lia|].
  destruct ph; cbn [in_deliver holds_flag]; lia.
Qed.

Lemma in_progress_app t1 t2 :
  in_progress (t1 ++ t2) = in_progress t1 + in_progress t2.
Proof.
  unfold in_progress. induction t1 as [|x t IH]; cbn [fold_right app]; [reflexivity|].
  rewrite IH. lia.
Qed.

Lemma firstn_length_app {A} (l1 l2 : list A) :
  firstn (List.length l1) (l1 ++ l2) = l1.
Proof. induction l1 as [|x t IH]; simpl; [destruct l2; reflexivity|]. rewrite IH. reflexivity. Qed.

Lemma skipn_length_app {A} (l1 l2 : list A) (x : A) :
  skipn (Datatypes.S (List.length l1)) (l1 ++ x :: l2) = l2.
Proof. induction l1 as [|y t IH]; simpl; [reflexivity|]. exact IH. Qed.

Lemma in_progress_one (lg : list event) (ev : event) :
  in_progress (lg ++ [ev]) = in_progress lg + deliver_delta ev.
Proof.
  rewrite in_progress_app. unfold in_progress at 2. cbn [fold_right]. lia.
Qed.

Lemma total_moved f (ph1 ph2 extra : list phase) (ph : phase) :
  total f (ph1 ++ ph :: ph2 ++ extra) =
  total f ph1 + f ph + total f ph2 + total f extra.
Proof.
  rewrite total_app. cbn [total]. rewrite total_app. lia.
Qed.

Lemma fits_moved (busy : cell) ph1 ph2 extra l1 l2 new ph p :
  Forall2 (fits busy) ph1 l1 ->
  Forall2 (fits busy) ph2 l2 ->
  Forall2 (fits busy) extra new ->
  fits busy ph p ->
  Forall2 (fits busy) (ph1 ++ ph :: ph2 ++ extra) (l1 ++ p :: l2 ++ new).
Proof.
  intros H1 H2 H3 H.
  apply Forall2_app; [exact H1|].
  constructor; [exact H|].
  apply Forall2_app; assumption.
Qed.

Lemma pool_step_guarded (S : Type) (handle : forall X, Ext X -> S -> X * S)
    (busy : cell) (i : nat) (c : pool S) :
  guarded_pool busy c -> guarded_pool busy (pool_step handle i c).
Proof.
  intros [Hlt [phases [Hfits [Hflag [Hone Hlog]]]]].
  unfold pool_step.
  destruct (nth_error (threads c) i) as [p|] eqn:Hnth;
    [|split; [exact Hlt|exists phases; auto]].
  destruct (prim_step handle p (pmem c) (penv c)) as [m|] eqn:Hstep;
    [|split; [exact Hlt|exists phases; auto]].
  apply nth_error_split in Hnth. destruct Hnth as [l1 [l2 [Hth Hlen]]].
  subst i. rewrite Hth in Hfits |- *.
  rewrite firstn_length_app, skipn_length_app.
  apply Forall2_app_inv_r in Hfits.
  destruct Hfits as [ph1 [phs [Hf1 [Hf2 Hph]]]].
  inversion Hf2 as [|ph p' ph2 l2' Hfit Hf2' Ea Eb]. subst p' l2' phs phases.
  rewrite total_app in Hflag, Hone, Hlog. cbn [total] in Hflag, Hone, Hlog.
  pose proof (total_bounds ph1) as B1. pose proof (total_bounds ph2) as B2.
  destruct c as [h s ths lg]. cbn [pmem penv threads plog] in *.
  destruct ph; cbn [fits] in Hfit; cbn [holds_flag in_deliver] in *.
  - (* the swap *)
    destruct Hfit as [op [K [HK Hp]]]. subst p.
    cbn in Hstep. injection Hstep as Hm. subst m. unfold guarded_pool.
    cbn [pmem penv threads plog next mem_after env_after done started fst snd mem_step].
    split; [rewrite length_heap_set; exact Hlt|].
    destruct (Z.eqb_spec (nth busy h 0) 0) as [Hclear|Hset]; cbn.
    + exists (ph1 ++ AtEnter :: ph2 ++ []). repeat split.
      * apply fits_moved; auto. exists op, K. split; [exact HK|reflexivity].
      * rewrite nth_heap_set_same by exact Hlt. rewrite total_moved.
        cbn [holds_flag total]. lia.
      * rewrite total_moved. cbn [holds_flag total]. lia.
      * rewrite in_progress_one, total_moved. cbn [in_deliver total deliver_delta].
        lia.
    + exists (ph1 ++ Outside :: ph2 ++ []). repeat split.
      * apply fits_moved; auto. exact I.
      * rewrite nth_heap_set_same by exact Hlt. rewrite total_moved.
        cbn [holds_flag total]. lia.
      * rewrite total_moved. cbn [holds_flag total]. lia.
      * rewrite in_progress_one, total_moved. cbn [in_deliver total deliver_delta].
        lia.
  - (* Deliver is entered *)
    destruct Hfit as [op [K [HK Hp]]]. subst p.
    cbn in Hstep. injection Hstep as Hm. subst m. unfold guarded_pool.
    cbn [pmem penv threads plog next mem_after env_after done started fst snd mem_step].
    split; [exact Hlt|].
    exists (ph1 ++ AtExit :: ph2 ++ []). repeat split.
    + apply fits_moved; auto. exists op, K. split; [exact HK|reflexivity].
    + rewrite total_moved. cbn [holds_flag total]. lia.
    + rewrite total_moved. cbn [holds_flag total]. lia.
    + rewrite in_progress_one, total_moved. cbn [in_deliver total deliver_delta].
      lia.
  - (* Deliver returns *)
    destruct Hfit as [op [K [HK Hp]]]. subst p.
    cbn in Hstep. injection Hstep as Hm. subst m. unfold guarded_pool.
    cbn [pmem penv threads plog next mem_after env_after done started fst snd mem_step].
    split; [exact Hlt|].
    exists (ph1 ++ AtStore :: ph2 ++ []). repeat split.
    + apply fits_moved; auto. eexists. split; [|reflexivity].
      intros u. apply HK.
    + rewrite total_moved. cbn [holds_flag total]. lia.
    + rewrite total_moved. cbn [holds_flag total]. lia.
    + rewrite in_progress_one, total_moved. cbn [in_deliver total deliver_delta].
      lia.
  - (* the store *)
    destruct Hfit as [k [Hk Hp]]. subst p.
    cbn in Hstep. injection Hstep as Hm. subst m. unfold guarded_pool.
    cbn [pmem penv threads plog next mem_after env_after done started fst snd mem_step].
    split; [rewrite length_heap_set; exact Hlt|].
    exists (ph1 ++ Outside :: ph2 ++ []). repeat split.
    + apply fits_moved; auto. apply Hk.
    + rewrite nth_heap_set_same by exact Hlt. rewrite total_moved.
      cbn [holds_flag total]. lia.
    + rewrite total_moved. cbn [holds_flag total]. lia.
    + rewrite in_progress_one, total_moved. cbn [in_deliver total deliver_delta].
      lia.
  - (* elsewhere *)
    destruct p as [r|v|X mo k|X e k|f k]; cbn in Hstep; try discriminate;
      cbn in Hfit; [contradiction| |];
      injection Hstep as Hm; subst m; unfold guarded_pool;
      cbn [pmem penv threads plog next mem_after env_after done started fst snd];
      (split; [exact Hlt|]).
    + destruct Hfit as [He Hk].
      exists (ph1 ++ Outside :: ph2 ++ []). repeat split.
      * apply fits_moved; auto. apply Hk.
      * rewrite total_moved. cbn [holds_flag total]. lia.
      * rewrite total_moved. cbn [holds_flag total]. lia.
      * rewrite in_progress_one, total_moved. cbn [in_deliver total].
        assert (Hd : forall x : X, deliver_delta (EvExt e x) = 0).
        { destruct e; intros x; try discriminate He; reflexivity. }
        rewrite Hd. lia.
    + destruct Hfit as [Hf Hk].
      exists (ph1 ++ Outside :: ph2 ++ [Outside]). repeat split.
      * apply fits_moved; auto.
      * rewrite total_moved. cbn [holds_flag total]. lia.
      * rewrite total_moved. cbn [holds_flag total]. lia.
      * rewrite app_nil_r, total_moved. cbn [in_deliver total]. lia.
Qed.

Lemma pool_run_guarded (S : Type) (handle : forall X, Ext X -> S -> X * S)
    (busy : cell) (schedule : list nat) (c : pool S) :
  guarded_pool busy c -> guarded_pool busy (pool_run handle schedule c).
Proof.
  revert c. induction schedule as [|i rest IH]; intros c Hc; simpl.
  - exact Hc.
  - apply IH. apply pool_step_guarded. exact Hc.
Qed.

Lemma fits_request_executors (busy : cell) (id : Z)
    (signer : replicaMessageSigner)
    (handleGeneratedMessage : generatedMessageHandler)
    (requests : list Request.t) :
  (forall reply, quiet (signer reply)) ->
  (forall reply, quiet (handleGeneratedMessage reply)) ->
  Forall2 (fits busy)
    (map (fun _ => AtSwap) requests)
    (map (makeRequestExecutor id (guardedBy busy extConsumer) signer
            handleGeneratedMessage) requests).
Proof.
  intros Hsign Hhandle.
  induction requests as [|request rest IH]; simpl; constructor; [|exact IH].
  eexists. eexists. split; [|reflexivity].
  intros c. simpl. split; [|exact I]. split; [reflexivity|].
  intros result. apply quiet_bind; [apply Hsign|apply Hhandle].
Qed.

Lemma total_all_at_swap (f : phase -> Z) (A : Type) (l : list A) :
  f AtSwap = 0 -> total f (map (fun _ => AtSwap) l) = 0.
Proof.
  intros Hf. induction l as [|x t IH]; cbn [map total]; [reflexivity|].
  rewrite Hf, IH. reflexivity.
Qed.

(** ** Deliveries *)

(** C4, as far as the code goes: whatever the number of goroutines that
    invoke the request executor and however they take turns, at every
    moment at most one call of [RequestConsumer.Deliver] has been entered
    and has not returned yet.  (A result that has not been received yet
    does not count: see [second_delivery_while_result_awaited].) *)
Theorem one_deliver_call_in_progress :
  forall (S : Type) (handle : forall X, Ext X -> S -> X * S)
         (w0 : world S) (executor : operationExecutor) (id : Z)
         (signer : replicaMessageSigner)
         (handleGeneratedMessage : generatedMessageHandler)
         (requests : list Request.t) (schedule : list nat),
    outcome (run handle (makeOperationExecutor extConsumer) w0) =
    Returned executor ->
    (forall reply, quiet (signer reply)) ->
    (forall reply, quiet (handleGeneratedMessage reply)) ->
    let made := final (run handle (makeOperationExecutor extConsumer) w0) in
    let requestExecutor :=
      makeRequestExecutor id executor signer handleGeneratedMessage in
    let c :=
      pool_run handle schedule
        (Pool (mem made) (env made) (map requestExecutor requests) []) in
    0 <= in_progress (plog c) <= 1.
Proof.
  intros S handle w0 executor id signer handleGM requests schedule
         Hmade Hsign Hhandle made requestExecutor c.
  subst made requestExecutor c.
  rewrite run_makeOperationExecutor in Hmade |- *.
  cbn [outcome final mem env] in Hmade |- *.
  injection Hmade as Hexec. subst executor.
  set (busy := List.length (mem w0)) in *.
  set (c := pool_run handle schedule _).
  assert (Hc : guarded_pool busy c).
  { subst c. apply pool_run_guarded. split; simpl.
    - unfold busy. rewrite length_app. simpl. lia.
    - exists (map (fun _ => AtSwap) requests). repeat split.
      + apply fits_request_executors; assumption.
      + unfold busy. rewrite nth_middle.
        rewrite total_all_at_swap; reflexivity.
      + rewrite total_all_at_swap; [lia|reflexivity].
      + rewrite total_all_at_swap; reflexivity. }
  destruct Hc as [_ [phases [_ [_ [Hone Hlog]]]]].
  pose proof (total_bounds phases) as B. lia.
Qed.

(** Two goroutines execute [request1] and [request2]; goroutine 1 enters
    the executor while goroutine 0 is inside [Deliver]. *)
Lemma one_deliver_call_in_progress_witness :
  0 <= in_progress
         (plog (pool_run sample_handle [0; 0; 1; 0; 0; 0]%nat
                  (Pool (mem sample_made) (env sample_made)
                     (map sampleRequestExecutor [request1; request2]) [])))
    <= 1.
Proof.
  apply (@one_deliver_call_in_progress sample sample_handle sample0
           sampleExecutor 0 extSigner extHandleGeneratedMessage
           [request1; request2] [0; 0; 1; 0; 0; 0]%nat eq_refl).
  - intros reply. simpl. split; [reflexivity|]. intros x. exact I.
  - intros reply. simpl. split; [reflexivity|]. intros x. exact I.
Defined.

(** C4 as stated fails: the second operation is delivered while the
    result of the first has not been received from its channel, and both
    results are outstanding when the executions have returned. *)
Lemma second_delivery_while_result_awaited :
  outcome twoExecutions = Returned tt /\
  trace twoExecutions =
  [EvMem (SwapUint32 O 1) 0;
   EvExt (ConsumerDeliverEnter [x78]) tt;
   EvExt (ConsumerDeliverExit [x78]) O;
   EvMem (StoreUint32 O 0) tt;
   EvMem (SwapUint32 O 1) 0;
   EvExt (ConsumerDeliverEnter [x79]) tt;
   EvExt (ConsumerDeliverExit [x79]) 1%nat;
   EvMem (StoreUint32 O 0) tt] /\
  List.length (spawned twoExecutions) = 2%nat /\
  awaited (trace twoExecutions) = [O; 1%nat] /\
  ~ delivers_one_at_a_time (trace twoExecutions).
Proof.
  repeat split. unfold delivers_one_at_a_time. vm_compute. discriminate.
Qed.

(** The guard at work: goroutine 0 has swapped the flag and is about to
    call [Deliver] when goroutine 1 enters; goroutine 1 panics and
    [Deliver] has not been called for it. *)
Example concurrent_entry_panics :
  let c :=
    pool_run sample_handle [0; 1]%nat
      (Pool (mem sample_made) (env sample_made)
         (map sampleRequestExecutor [request1; request2]) []) in
  nth_error (threads c) 1 =
  Some (Panic "Concurrent operation execution detected") /\
  plog c = [EvMem (SwapUint32 O 1) 0; EvMem (SwapUint32 O 1) 1].
Proof. split; reflexivity. Qed.

(** One goroutine alone does, turn after turn, what the sequential run
    does. *)
Example pool_of_one_agrees_with_run :
  let c :=
    pool_run sample_handle [0; 0; 0; 0; 0]%nat
      (Pool (mem sample_made) (env sample_made)
         [sampleRequestExecutor request1] []) in
  let r := run sample_handle (sampleRequestExecutor request1) sample_made in
  plog c = trace r /\
  World (pmem c) (penv c) = final r /\
  threads c = (Ret tt :: spawned r)%list.
Proof. repeat split. Qed.

(** ** Further properties of the executors and the processor *)

Lemma nth_heap_set_other (a b : cell) (v : Z) (h : heap) :
  a <> b -> nth a (heap_set b v h) 0 = nth a h 0.
Proof.
  revert a b; induction h as [|x t IH]; intros [|a] [|b] Hab; simpl;
    try reflexivity; try congruence.
  apply IH. congruence.
Qed.

Lemma count_events_app (kind : event -> bool) (t1 t2 : list event) :
  count_events kind (t1 ++ t2) =
  (count_events kind t1 + count_events kind t2)%nat.
Proof.
  unfold count_events. rewrite filter_app, length_app. reflexivity.
Qed.

Lemma delivered_ops_app (t1 t2 : list event) :
  delivered_ops (t1 ++ t2) = (delivered_ops t1 ++ delivered_ops t2)%list.
Proof.
  induction t1 as [|ev t IH]; simpl; [reflexivity|].
  destruct ev as [X m x|X e x]; [exact IH|].
  destruct e; simpl; rewrite ?IH; reflexivity.
Qed.

(** One execution that finds the flag clear. *)
Lemma run_execute_clear (S : Type) (handle : forall X, Ext X -> S -> X * S)
    (busy : cell) (id : Z) (signer : replicaMessageSigner)
    (handleGeneratedMessage : generatedMessageHandler)
    (request : Request.t) (w : world S) :
  (busy < List.length (mem w))%nat ->
  nth busy (mem w) 0 = 0 ->
  let r :=
    run handle
      (makeRequestExecutor id (guardedBy busy extConsumer) signer
         handleGeneratedMessage request) w in
  outcome r = Returned tt /\
  delivered_ops (trace r) = [request.(Request.Msg).(Request_M.Payload)] /\
  List.length (spawned r) = 1%nat /\
  List.length (mem (final r)) = List.length (mem w) /\
  nth busy (mem (final r)) 0 = 0.
Proof.
  intros Hlt Hclear r. subst r.
  unfold makeRequestExecutor, guardedBy. simpl. rewrite Hclear. simpl.
  repeat split.
  - rewrite !length_heap_set. reflexivity.
  - apply nth_heap_set_same. rewrite length_heap_set. exact Hlt.
Qed.

(** X1: a caller that executes requests one after the other through one
    operation executor, starting with the flag clear, never trips the
    guard: the executions return, every operation is delivered, in the
    order of the requests, one goroutine per request is left to send the
    reply, and the flag is clear again at the end. *)
Theorem serial_executions_all_delivered :
  forall (S : Type) (handle : forall X, Ext X -> S -> X * S)
         (w0 : world S) (executor : operationExecutor) (id : Z)
         (signer : replicaMessageSigner)
         (handleGeneratedMessage : generatedMessageHandler)
         (requests : list Request.t) (w : world S),
    outcome (run handle (makeOperationExecutor extConsumer) w0) =
    Returned executor ->
    let busy := List.length (mem w0) in
    (busy < List.length (mem w))%nat ->
    nth busy (mem w) 0 = 0 ->
    let r :=
      run handle
        (executeAll
           (makeRequestExecutor id executor signer handleGeneratedMessage)
           requests) w in
    outcome r = Returned tt /\
    delivered_ops (trace r) =
    map (fun request => request.(Request.Msg).(Request_M.Payload)) requests /\
    List.length (spawned r) = List.length requests /\
    nth busy (mem (final r)) 0 = 0.
Proof.
  intros S handle w0 executor id signer handleGM requests w Hmade busy.
  rewrite run_makeOperationExecutor in Hmade. injection Hmade as Hexec.
  subst executor. fold busy.
  revert w. induction requests as [|request rest IH]; intros w Hlt Hclear r.
  - subst r. simpl. repeat split. exact Hclear.
  - subst r. cbn [executeAll fold_right]. rewrite run_bind.
    destruct (@run_execute_clear S handle busy id signer handleGM request w
                Hlt Hclear)
      as [Hout [Hops [Hsp [Hlen Hflag]]]].
    rewrite Hout. cbn [then_result outcome trace spawned final].
    rewrite <- Hlen in Hlt.
    destruct (IH _ Hlt Hflag) as [Hout' [Hops' [Hsp' Hflag']]].
    fold (executeAll
            (makeRequestExecutor id (guardedBy busy extConsumer) signer handleGM)
            rest).
    repeat split.
    + exact Hout'.
    + rewrite delivered_ops_app, Hops, Hops'. reflexivity.
    + rewrite length_app, Hsp, Hsp'. reflexivity.
    + exact Hflag'.
Qed.

Lemma serial_executions_all_delivered_witness :
  let r :=
    run sample_handle
      (executeAll sampleRequestExecutor [request1; request2; request1])
      sample_made in
  outcome r = Returned tt /\
  delivered_ops (trace r) = [[x78]; [x79]; [x78]] /\
  List.length (spawned r) = 3%nat /\
  nth O (mem (final r)) 0 = 0.
Proof.
  apply (@serial_executions_all_delivered sample sample_handle sample0
           sampleExecutor 0 extSigner extHandleGeneratedMessage
           [request1; request2; request1] sample_made eq_refl).
  - simpl. lia.
  - reflexivity.
Defined.

(** X2: the flag is not cleared when [Deliver] panics.  An invocation
    that finds the flag clear and whose [Deliver] panics panics with the
    same value, and (the consumer having left the heap as it was) the
    flag stays set: every later invocation of this executor panics in the
    guard, without calling [Deliver]. *)
Theorem deliver_panic_leaves_flag_set :
  forall (S : Type) (handle : forall X, Ext X -> S -> X * S)
         (consumer : api.RequestConsumer) (w0 : world S)
         (executor : operationExecutor) (op : bytes) (w : world S)
         (v : string),
    outcome (run handle (makeOperationExecutor consumer) w0) =
    Returned executor ->
    let busy := List.length (mem w0) in
    let entered := World (heap_set busy 1 (mem w)) (env w) in
    let rd := run handle (api.Deliver consumer op) entered in
    (busy < List.length (mem w))%nat ->
    nth busy (mem w) 0 = 0 ->
    outcome rd = Panicked v ->
    mem (final rd) = mem entered ->
    run handle (executor op) w =
    Result (EvMem (SwapUint32 busy 1) 0 :: trace rd) (spawned rd)
           (Panicked v) (final rd)
    /\
    forall op',
      run handle (executor op') (final rd) =
      Result [EvMem (SwapUint32 busy 1) 1] []
             (Panicked "Concurrent operation execution detected")
             (World (heap_set busy 1 (mem (final rd))) (env (final rd))).
Proof.
  intros S handle consumer w0 executor op w v Hmade busy entered rd
         Hlt Hclear Hd Hmem.
  rewrite run_makeOperationExecutor in Hmade. injection Hmade as Hexec.
  subst executor. fold busy.
  assert (Hflag : nth busy (mem (final rd)) 0 = 1).
  { rewrite Hmem. simpl. apply nth_heap_set_same. exact Hlt. }
  split.
  - unfold guardedBy. simpl. rewrite Hclear. simpl.
    rewrite run_bind. fold entered. fold rd. rewrite Hd. reflexivity.
  - intros op'. rewrite run_guardedBy_set; rewrite Hflag; [reflexivity|].
    discriminate.
Qed.

Lemma deliver_panic_leaves_flag_set_witness :
  exists executor : operationExecutor,
    outcome (run sample_handle (makeOperationExecutor panickingConsumer) sample0) =
    Returned executor /\
    run sample_handle (executor [x78]) (World [0] (Sample 0 0 0 0 O)) =
    Result [EvMem (SwapUint32 O 1) 0] [] (Panicked "state machine failure")
           (World [1] (Sample 0 0 0 0 O)) /\
    run sample_handle (executor [x79]) (World [1] (Sample 0 0 0 0 O)) =
    Result [EvMem (SwapUint32 O 1) 1] []
           (Panicked "Concurrent operation execution detected")
           (World [1] (Sample 0 0 0 0 O)).
Proof.
  eexists. split; [reflexivity|].
  destruct (@deliver_panic_leaves_flag_set sample sample_handle
              panickingConsumer sample0 _ [x78]
              (World [0] (Sample 0 0 0 0 O)) "state machine failure"
              eq_refl (Nat.lt_0_succ 0) eq_refl eq_refl eq_refl)
    as [Hfirst Hlater].
  split.
  - exact Hfirst.
  - exact (Hlater [x79]).
Defined.

(** X3: each executor has a flag of its own.  When two executors have
    been made, an invocation of the second that finds its own flag clear
    goes through although the first executor is busy, and it leaves the
    flag of the first as it was: the first still refuses entry. *)
Theorem executors_have_own_flags :
  forall (S : Type) (handle : forall X, Ext X -> S -> X * S)
         (consumerA consumerB : api.RequestConsumer) (w0 : world S)
         (executorA executorB : operationExecutor)
         (op : bytes) (w : world S) (resultChan : chan),
    outcome (run handle
               (a <- makeOperationExecutor consumerA ;;
                b <- makeOperationExecutor consumerB ;;
                Ret (a, b)) w0) = Returned (executorA, executorB) ->
    let busyA := List.length (mem w0) in
    let busyB := Datatypes.S busyA in
    let entered := World (heap_set busyB 1 (mem w)) (env w) in
    let rd := run handle (api.Deliver consumerB op) entered in
    (busyB < List.length (mem w))%nat ->
    nth busyA (mem w) 0 <> 0 ->
    nth busyB (mem w) 0 = 0 ->
    outcome rd = Returned resultChan ->
    mem (final rd) = mem entered ->
    let r := run handle (executorB op) w in
    outcome r = Returned resultChan /\
    nth busyA (mem (final r)) 0 = nth busyA (mem w) 0 /\
    forall op',
      outcome (run handle (executorA op') (final r)) =
      Panicked "Concurrent operation execution detected".
Proof.
  intros S handle consumerA consumerB w0 executorA executorB op w resultChan
         Hmade busyA busyB entered rd Hlt HsetA HclearB Hd Hmem r.
  rewrite run_bind, run_makeOperationExecutor in Hmade.
  cbn [outcome final then_result] in Hmade.
  rewrite run_bind, run_makeOperationExecutor in Hmade.
  cbn [outcome final then_result mem run] in Hmade.
  rewrite length_app in Hmade. cbn [List.length] in Hmade.
  rewrite Nat.add_1_r in Hmade.
  injection Hmade as HA HB. subst executorA executorB.
  fold busyA in r |- *. fold busyB in r.
  assert (Hr : r =
               Result (EvMem (SwapUint32 busyB 1) 0 :: trace rd ++
                       [EvMem (StoreUint32 busyB 0) tt])
                      (spawned rd) (Returned resultChan)
                      (World (heap_set busyB 0 (mem (final rd)))
                             (env (final rd)))).
  { subst r. apply run_guardedBy_clear; assumption. }
  assert (Hkept : nth busyA (mem (final r)) 0 = nth busyA (mem w) 0).
  { rewrite Hr. cbn [final mem]. rewrite Hmem. cbn [entered mem].
    rewrite !nth_heap_set_other by (unfold busyB; lia). reflexivity. }
  split; [rewrite Hr; reflexivity|]. split; [exact Hkept|].
  intros op'. rewrite run_guardedBy_set; [reflexivity|].
  rewrite Hkept. exact HsetA.
Qed.

Lemma executors_have_own_flags_witness :
  exists executorA executorB : operationExecutor,
    outcome (run sample_handle
               (a <- makeOperationExecutor extConsumer ;;
                b <- makeOperationExecutor extConsumer ;;
                Ret (a, b)) sample0) = Returned (executorA, executorB) /\
    outcome (run sample_handle (executorB [x78])
               (World [1; 0] (Sample 0 0 0 0 O))) = Returned O /\
    outcome (run sample_handle (executorA [x79])
               (final (run sample_handle (executorB [x78])
                         (World [1; 0] (Sample 0 0 0 0 O))))) =
    Panicked "Concurrent operation execution detected".
Proof.
  eexists. eexists. split; [reflexivity|].
  destruct (@executors_have_own_flags sample sample_handle extConsumer
              extConsumer sample0 _ _ [x78]
              (World [1; 0] (Sample 0 0 0 0 O)) O eq_refl)
    as [Hout [_ Hbusy]].
  - simpl. lia.
  - discriminate.
  - reflexivity.
  - reflexivity.
  - reflexivity.
  - split; [exact Hout|exact (Hbusy [x79])].
Defined.

(** X4: panics go through the processor.  A panic of [captureSeq] ends
    the processor at once: nothing is applied and nothing released.  When
    the capture is new and the applier panics, the deferred release still
    runs, after the applier, and the panic goes on (a panic of the
    release itself takes its place). *)
Theorem processor_releases_on_panic :
  forall (S : Type) (handle : forall X, Ext X -> S -> X * S)
         (captureSeq : requestSeqCapturer) (applyRequest : requestApplier)
         (request : Request.t) (w : world S),
    let rc := run handle (captureSeq request) w in
    let rp := run handle (makeRequestProcessor captureSeq applyRequest request) w in
    (forall v, outcome rc = Panicked v -> rp = halt rc v)
    /\
    (forall releaseSeq v,
        outcome rc = Returned (true, releaseSeq) ->
        let ra := run handle (applyRequest request) (final rc) in
        let rr := run handle releaseSeq (final ra) in
        outcome ra = Panicked v ->
        trace rp = (trace rc ++ trace ra ++ trace rr)%list /\
        final rp = final rr /\
        (outcome rr = Returned tt -> outcome rp = Panicked v) /\
        (forall v', outcome rr = Panicked v' -> outcome rp = Panicked v')).
Proof.
  intros S handle captureSeq applyRequest request w rc rp.
  subst rc rp. rewrite run_makeRequestProcessor. simpl.
  split.
  - intros v Hc. rewrite Hc. reflexivity.
  - intros releaseSeq v Hc Ha. rewrite Hc. simpl.
    rewrite Ha. repeat split.
    + intros Hr. rewrite Hr. reflexivity.
    + intros v' Hr. rewrite Hr. reflexivity.
Qed.

Lemma processor_releases_on_panic_witness :
  trace (run sample_handle
           (makeRequestProcessor sampleCapturer panickingApplier request1)
           sample0) =
  [EvExt (ProvideClientState 7) tt;
   EvExt (StateCaptureRequestSeq 7 1) (true, O);
   EvExt (StateReleaseRequestSeq 7 O) tt]
  /\
  outcome (run sample_handle
             (makeRequestProcessor sampleCapturer panickingApplier request1)
             sample0) = Panicked "applier failure".
Proof.
  destruct (proj2 (@processor_releases_on_panic sample sample_handle
                     sampleCapturer panickingApplier request1 sample0)
                  (call (StateReleaseRequestSeq 7 O)) "applier failure"%string
                  eq_refl eq_refl)
    as [Htrace [_ [Hout _]]].
  split; [exact Htrace|exact (Hout eq_refl)].
Defined.

(** X5: with the capturer of this file over the client state, a request
    whose sequence number is captured as new is released exactly once,
    and a duplicate is never released, provided the applier does not
    release it itself. *)
Theorem release_once_per_new_capture :
  forall (S : Type) (handle : forall X, Ext X -> S -> X * S)
         (applyRequest : requestApplier) (request : Request.t) (w : world S),
    (forall w',
        count_events is_release
          (trace (run handle (applyRequest request) w')) = O) ->
    let clientID := request.(Request.Msg).(Request_M.ClientId) in
    let seq := request.(Request.Msg).(Request_M.Seq) in
    let provided := handle _ (ProvideClientState clientID) (env w) in
    let captured :=
      handle _ (StateCaptureRequestSeq clientID seq) (snd provided) in
    count_events is_release
      (trace (run handle
                (makeRequestProcessor (makeRequestSeqCapturer extProvider)
                   applyRequest request) w)) =
    if fst (fst captured) then 1%nat else O.
Proof.
  intros S handle applyRequest request w Happly clientID seq provided captured.
  rewrite run_makeRequestProcessor.
  unfold makeRequestSeqCapturer, extProvider. simpl.
  fold clientID. fold seq. fold provided. fold captured.
  destruct captured as [[new tok] s2]. simpl.
  destruct new; simpl; [|reflexivity].
  change (?a :: ?b :: ?t ++ ?u)%list with ([a; b] ++ t ++ u)%list.
  rewrite !count_events_app, Happly. reflexivity.
Qed.

Lemma release_once_per_new_capture_witness :
  count_events is_release
    (trace (run sample_handle
              (makeRequestProcessor (makeRequestSeqCapturer extProvider)
                 sampleApplier request1) sample0)) = 1%nat
  /\
  count_events is_release
    (trace (run sample_handle
              (makeRequestProcessor (makeRequestSeqCapturer extProvider)
                 sampleApplier request1) sample_seen1)) = O.
Proof.
  split.
  - apply (@release_once_per_new_capture sample sample_handle sampleApplier
             request1 sample0).
    intros w'. unfold sampleApplier. rewrite run_makeRequestApplier. simpl.
    match goal with
    | |- context [if ?b then _ else _] => destruct b
    end; reflexivity.
  - apply (@release_once_per_new_capture sample sample_handle sampleApplier
             request1 sample_seen1).
    intros w'. unfold sampleApplier. rewrite run_makeRequestApplier. simpl.
    match goal with
    | |- context [if ?b then _ else _] => destruct b
    end; reflexivity.
Defined.

(** X6: a request executed while the operation executor is busy gets no
    reply: the request executor panics after the swap, [Deliver] is not
    called, no goroutine is created, nothing is signed or handed over. *)
Theorem refused_execution_sends_no_reply :
  forall (S : Type) (handle : forall X, Ext X -> S -> X * S)
         (consumer : api.RequestConsumer) (w0 : world S)
         (executor : operationExecutor) (id : Z)
         (signer : replicaMessageSigner)
         (handleGeneratedMessage : generatedMessageHandler)
         (request : Request.t) (w : world S),
    outcome (run handle (makeOperationExecutor consumer) w0) =
    Returned executor ->
    let busy := List.length (mem w0) in
    nth busy (mem w) 0 <> 0 ->
    run handle
      (makeRequestExecutor id executor signer handleGeneratedMessage request) w =
    Result [EvMem (SwapUint32 busy 1) (nth busy (mem w) 0)] []
           (Panicked "Concurrent operation execution detected")
           (World (heap_set busy 1 (mem w)) (env w)).
Proof.
  intros S handle consumer w0 executor id signer handleGM request w Hmade busy
         Hset.
  rewrite run_makeOperationExecutor in Hmade. injection Hmade as Hexec.
  subst executor. fold busy.
  unfold makeRequestExecutor. rewrite run_bind.
  rewrite run_guardedBy_set by exact Hset. reflexivity.
Qed.

Lemma refused_execution_sends_no_reply_witness :
  run sample_handle (sampleRequestExecutor request1)
      (World [1] (Sample 0 0 0 0 O)) =
  Result [EvMem (SwapUint32 O 1) 1] []
         (Panicked "Concurrent operation execution detected")
         (World [1] (Sample 0 0 0 0 O)).
Proof.
  apply (@refused_execution_sends_no_reply sample sample_handle extConsumer
           sample0 sampleExecutor 0 extSigner extHandleGeneratedMessage
           request1 (World [1] (Sample 0 0 0 0 O)) eq_refl).
  discriminate.
Defined.

(** X7: the processor wired with the capturer and the applier of this
    file never returns an error: it returns the flag of the capture.  Its
    trace is the provision of the client's state and the capture, and,
    when the capture is new, the reading of the view, the Prepare handed
    over if the replica is primary, and the release: the Prepare leaves
    while the sequence number is held. *)
Theorem wired_processor_run :
  forall (S : Type) (handle : forall X, Ext X -> S -> X * S)
         (isPrimary' : Z -> Z -> Z -> bool) (id n : Z)
         (request : Request.t) (w : world S),
    let clientID := request.(Request.Msg).(Request_M.ClientId) in
    let seq := request.(Request.Msg).(Request_M.Seq) in
    let provided := handle _ (ProvideClientState clientID) (env w) in
    let captured :=
      handle _ (StateCaptureRequestSeq clientID seq) (snd provided) in
    let new := fst (fst captured) in
    let tok := snd (fst captured) in
    let v := fst (handle _ ViewNow (snd captured)) in
    let prepare :=
      {| Prepare.Msg := {| Prepare_M.View := v; Prepare_M.ReplicaId := id;
                           Prepare_M.Request := request |};
         Prepare.Ui := [] |} in
    let r :=
      run handle
        (makeRequestProcessor (makeRequestSeqCapturer extProvider)
           (makeRequestApplier isPrimary' id n extView
              extHandleGeneratedUIMessage) request) w in
    outcome r = Returned (new, None) /\
    spawned r = [] /\
    trace r =
    ([EvExt (ProvideClientState clientID) tt;
      EvExt (StateCaptureRequestSeq clientID seq) (new, tok)] ++
     if new then
       EvExt ViewNow v ::
       (if isPrimary' v id n
        then [EvExt (HandleGeneratedUIMessage prepare) tt]
        else []) ++
       [EvExt (StateReleaseRequestSeq clientID tok) tt]
     else [])%list.
Proof.
  intros S handle isP id n request w clientID seq provided captured new tok v
         prepare r.
  subst r. rewrite run_makeRequestProcessor.
  unfold makeRequestSeqCapturer, extProvider. simpl.
  fold clientID. fold seq. fold provided.
  destruct (fst provided).
  fold captured. subst new tok v prepare.
  destruct captured as [[new tok] s2]. simpl.
  destruct new; simpl; [|repeat split].
  destruct (isP (fst (handle Z ViewNow s2)) id n); simpl.
  - destruct (fst (handle unit (HandleGeneratedUIMessage _) _)).
    destruct (fst (handle unit (StateReleaseRequestSeq clientID tok) _)).
    repeat split.
  - destruct (fst (handle unit (StateReleaseRequestSeq clientID tok) _)).
    repeat split.
Qed.

(** ** Executions and replies under interleaving *)

Lemma tally_app f l1 l2 : tally f (l1 ++ l2) = (tally f l1 + tally f l2)%nat.
Proof.
  induction l1 as [|x t IH]; cbn [tally app]; [reflexivity|].
  rewrite IH. lia.
Qed.

Lemma tally_le (f g : stage -> nat) (l : list stage) :
  (forall st, (f st <= g st)%nat) -> (tally f l <= tally g l)%nat.
Proof.
  intros Hfg. induction l as [|x t IH]; cbn [tally]; [lia|].
  specialize (Hfg x). lia.
Qed.

Lemma count_events_one (kind : event -> bool) (lg : list event) (ev : event) :
  count_events kind (lg ++ [ev]) =
  (count_events kind lg + if kind ev then 1 else 0)%nat.
Proof.
  rewrite count_events_app. unfold count_events at 2. cbn [filter].
  destruct (kind ev); reflexivity.
Qed.

Lemma stage_prog_waiting_steps (S : Type) (handle : forall X, Ext X -> S -> X * S)
    (busy : cell) (id : Z) (request : Request.t) (h : heap) (s : S) :
  prim_step handle (stage_prog busy id (Waiting request)) h s =
  Some (Moved
          (stage_prog busy id
             (if nth busy h 0 =? 0 then Entering request else Refused))
          (heap_set busy 1 h) s
          [EvMem (SwapUint32 busy 1) (nth busy h 0)] []).
Proof.
  cbn. destruct (nth busy h 0 =? 0); reflexivity.
Qed.

Lemma tally_moved f (s1 s2 extra : list stage) (st : stage) :
  tally f (s1 ++ st :: s2 ++ extra) =
  (tally f s1 + f st + tally f s2 + tally f extra)%nat.
Proof.
  rewrite tally_app. cbn [tally]. rewrite tally_app. lia.
Qed.

Lemma threads_moved (busy : cell) (id : Z) (s1 s2 extra : list stage)
    (st : stage) :
  (map (stage_prog busy id) s1 ++ stage_prog busy id st ::
   map (stage_prog busy id) s2 ++ map (stage_prog busy id) extra)%list =
  map (stage_prog busy id) (s1 ++ st :: s2 ++ extra).
Proof.
  rewrite map_app. cbn [map]. rewrite map_app. reflexivity.
Qed.

Lemma stages_moved (id : Z) (requests : list Request.t)
    (s1 s2 extra : list stage) (st : stage) :
  Forall (stage_of id requests) s1 ->
  Forall (stage_of id requests) s2 ->
  Forall (stage_of id requests) extra ->
  stage_of id requests st ->
  Forall (stage_of id requests) (s1 ++ st :: s2 ++ extra).
Proof.
  intros H1 H2 H3 H.
  apply Forall_app. split; [exact H1|].
  constructor; [exact H|]. apply Forall_app. split; assumption.
Qed.

Lemma log_moved (id : Z) (requests : list Request.t) (lg : list event)
    (ev : event) :
  Forall (replies_of id requests) lg ->
  replies_of id requests ev ->
  Forall (replies_of id requests) (lg ++ [ev]).
Proof.
  intros Hlg Hev. apply Forall_app. split; [exact Hlg|].
  constructor; [exact Hev|constructor].
Qed.

Ltac settle_counts :=
  cbn [plog];
  repeat rewrite tally_moved;
  repeat rewrite count_events_one; repeat rewrite app_nil_r;
  cbn [tally is_executing has_entered has_delivered has_finished is_replier
       has_replied is_deliver_enter is_deliver_exit is_reply_handed];
  lia.

Ltac moved_to busy id st' extra :=
  match goal with
  | |- tracked_pool _ _ _
         {| pmem := _; penv := _;
            threads := (map _ ?s1 ++ _ :: map _ ?s2 ++ _)%list; plog := _ |} =>
      exists (s1 ++ st' :: s2 ++ extra)%list;
      split; [exact (threads_moved busy id s1 s2 extra st')|]
  end.

Lemma pool_step_tracked (S : Type) (handle : forall X, Ext X -> S -> X * S)
    (busy : cell) (id : Z) (requests : list Request.t) (i : nat) (c : pool S) :
  tracked_pool busy id requests c ->
  tracked_pool busy id requests (pool_step handle i c).
Proof.
  intros Hc. generalize Hc.
  intros [stages [Hth [Hst [Hlog [Hn [He [Hx [Hr Hh]]]]]]]].
  unfold pool_step.
  destruct (nth_error (threads c) i) as [p|] eqn:Hnth; [|exact Hc].
  destruct (prim_step handle p (pmem c) (penv c)) as [m|] eqn:Hstep;
    [|exact Hc].
  clear Hc.
  apply nth_error_split in Hnth. destruct Hnth as [l1 [l2 [Hsplit Hlen]]].
  subst i. rewrite Hsplit. rewrite firstn_length_app, skipn_length_app.
  rewrite Hsplit in Hth. symmetry in Hth.
  apply map_eq_app in Hth. destruct Hth as [s1 [s' [Hstages [Hl1 Hl']]]].
  apply map_eq_cons in Hl'. destruct Hl' as [st [s2 [Hs' [Hp Hl2]]]].
  subst stages s' l1 l2 p.
  apply Forall_app in Hst. destruct Hst as [Hst1 Hst'].
  inversion Hst' as [|st0 s20 Hok Hst2 E0]. subst st0 s20. clear Hst'.
  repeat rewrite tally_app in Hn. repeat rewrite tally_app in He.
  repeat rewrite tally_app in Hx. repeat rewrite tally_app in Hr.
  repeat rewrite tally_app in Hh.
  cbn [tally] in Hn, He, Hx, Hr, Hh.
  destruct c as [h s ths lg]. cbn [pmem penv threads plog] in *.
  destruct st as [request|request|request|request ch|request ch| |
                  |request ch|request result|reply| ];
    cbn [stage_of] in Hok;
    cbn [is_executing has_entered has_delivered has_finished is_replier
         has_replied] in Hn, He, Hx, Hr, Hh.
  - (* the swap *)
    rewrite stage_prog_waiting_steps in Hstep.
    injection Hstep as Hm. subst m. cbn [next mem_after env_after done started].
    destruct (nth busy h 0 =? 0).
    + moved_to busy id (Entering request) (@nil stage).
      repeat split; try settle_counts.
      * apply stages_moved; auto.
      * cbn [plog]. apply log_moved; [exact Hlog|exact I].
    + moved_to busy id Refused (@nil stage).
      repeat split; try settle_counts.
      * apply stages_moved; auto. exact I.
      * cbn [plog]. apply log_moved; [exact Hlog|exact I].
  - (* Deliver is entered *)
    cbn in Hstep. injection Hstep as Hm. subst m.
    cbn [next mem_after env_after done started].
    moved_to busy id (Delivering request) (@nil stage).
    repeat split; try settle_counts.
    + apply stages_moved; auto.
    + cbn [plog]. apply log_moved; [exact Hlog|exact I].
  - (* Deliver returns *)
    cbn in Hstep. injection Hstep as Hm. subst m.
    cbn [next mem_after env_after done started].
    moved_to busy id
      (Clearing request
         (fst (handle _ (ConsumerDeliverExit
                           request.(Request.Msg).(Request_M.Payload)) s)))
      (@nil stage).
    repeat split; try settle_counts.
    + apply stages_moved; auto.
    + cbn [plog]. apply log_moved; [exact Hlog|exact I].
  - (* the flag is cleared *)
    cbn in Hstep. injection Hstep as Hm. subst m.
    cbn [next mem_after env_after done started].
    moved_to busy id (Spawning request ch) (@nil stage).
    repeat split; try settle_counts.
    + apply stages_moved; auto.
    + cbn [plog]. apply log_moved; [exact Hlog|exact I].
  - (* the replier is created *)
    cbn in Hstep. injection Hstep as Hm. subst m.
    cbn [next mem_after env_after done started].
    moved_to busy id Finished [Receiving request ch].
    repeat split; try settle_counts.
    + apply stages_moved; auto. exact I.
    + cbn [plog]. rewrite app_nil_r. exact Hlog.
  - discriminate Hstep.
  - discriminate Hstep.
  - (* the result is received *)
    cbn in Hstep. injection Hstep as Hm. subst m.
    cbn [next mem_after env_after done started].
    moved_to busy id
      (Signing request (fst (handle _ (ChanRecv ch) s))) (@nil stage).
    repeat split; try settle_counts.
    + apply stages_moved; auto.
    + cbn [plog]. apply log_moved; [exact Hlog|exact I].
  - (* the Reply is signed *)
    cbn in Hstep. injection Hstep as Hm. subst m.
    cbn [next mem_after env_after done started].
    assert (Hreply : forall signature,
               reply_to id requests
                 {| Reply.Msg :=
                      {| Reply_M.ReplicaId := id;
                         Reply_M.ClientId :=
                           request.(Request.Msg).(Request_M.ClientId);
                         Reply_M.Seq := request.(Request.Msg).(Request_M.Seq);
                         Reply_M.Result := result |};
                    Reply.Signature := signature |}).
    { intros signature. split; [reflexivity|].
      exists request. repeat split. exact Hok. }
    match goal with
    | |- context [EvExt (SignReply ?r) ?sig] =>
        moved_to busy id
          (Handing {| Reply.Msg := Reply.Msg r; Reply.Signature := sig |})
          (@nil stage)
    end.
    repeat split; try settle_counts.
    + apply stages_moved; auto. apply Hreply.
    + cbn [plog]. apply log_moved; [exact Hlog|apply Hreply].
  - (* the Reply is handed over *)
    cbn in Hstep. injection Hstep as Hm. subst m.
    cbn [next mem_after env_after done started].
    destruct (fst (handle unit (HandleGeneratedMessage reply) s)).
    moved_to busy id Replied (@nil stage).
    repeat split; try settle_counts.
    + apply stages_moved; auto. exact I.
    + cbn [plog]. apply log_moved; [exact Hlog|exact Hok].
  - discriminate Hstep.
Qed.

Lemma pool_run_tracked (S : Type) (handle : forall X, Ext X -> S -> X * S)
    (busy : cell) (id : Z) (requests : list Request.t) (schedule : list nat)
    (c : pool S) :
  tracked_pool busy id requests c ->
  tracked_pool busy id requests (pool_run handle schedule c).
Proof.
  revert c. induction schedule as [|i rest IH]; intros c Hc; simpl.
  - exact Hc.
  - apply IH. apply pool_step_tracked. exact Hc.
Qed.

Lemma tally_waiting (f : stage -> nat) (n : nat) (requests : list Request.t) :
  (forall request, f (Waiting request) = n) ->
  tally f (map Waiting requests) = (n * List.length requests)%nat.
Proof.
  intros Hf. induction requests as [|request rest IH]; cbn [map tally List.length].
  - lia.
  - rewrite Hf, IH. lia.
Qed.

Lemma tracked_at_start (S : Type) (busy : cell) (id : Z)
    (requests : list Request.t) (h : heap) (s : S) :
  tracked_pool busy id requests
    (Pool h s
       (map (makeRequestExecutor id (guardedBy busy extConsumer) extSigner
               extHandleGeneratedMessage) requests) []).
Proof.
  exists (map Waiting requests). cbn [threads plog]. repeat split.
  - rewrite map_map. reflexivity.
  - apply Forall_forall. intros st Hin. apply in_map_iff in Hin.
    destruct Hin as [request [Hst Hin]]. subst st. exact Hin.
  - constructor.
  - rewrite (@tally_waiting is_executing 1%nat); [lia|reflexivity].
  - rewrite (@tally_waiting has_entered 0%nat); reflexivity.
  - rewrite (@tally_waiting has_delivered 0%nat); reflexivity.
  - rewrite (@tally_waiting is_replier 0%nat), (@tally_waiting has_finished 0%nat);
      reflexivity.
  - rewrite (@tally_waiting has_replied 0%nat); reflexivity.
Qed.

(** X8: however the goroutines that execute requests take turns, no
    Reply is handed over without its operation having been delivered and
    no request is delivered twice: at every moment the Replies handed to
    the generated-message handler are at most the calls of [Deliver] that
    have returned, these are at most the calls entered, and these are at
    most the requests. *)
Theorem replies_follow_deliveries :
  forall (S : Type) (handle : forall X, Ext X -> S -> X * S)
         (w0 : world S) (executor : operationExecutor) (id : Z)
         (requests : list Request.t) (schedule : list nat),
    outcome (run handle (makeOperationExecutor extConsumer) w0) =
    Returned executor ->
    let made := final (run handle (makeOperationExecutor extConsumer) w0) in
    let requestExecutor :=
      makeRequestExecutor id executor extSigner extHandleGeneratedMessage in
    let c :=
      pool_run handle schedule
        (Pool (mem made) (env made) (map requestExecutor requests) []) in
    (count_events is_reply_handed (plog c) <=
     count_events is_deliver_exit (plog c))%nat /\
    (count_events is_deliver_exit (plog c) <=
     count_events is_deliver_enter (plog c))%nat /\
    (count_events is_deliver_enter (plog c) <= List.length requests)%nat.
Proof.
  intros S handle w0 executor id requests schedule Hmade made requestExecutor c.
  subst made requestExecutor c.
  rewrite run_makeOperationExecutor in Hmade |- *.
  cbn [outcome final mem env] in Hmade |- *.
  injection Hmade as Hexec. subst executor.
  set (busy := List.length (mem w0)).
  set (c := pool_run handle schedule _).
  assert (Hc : tracked_pool busy id requests c).
  { subst c. apply pool_run_tracked. apply tracked_at_start. }
  destruct Hc as [stages [_ [_ [_ [Hn [He [Hx [Hr Hh]]]]]]]].
  rewrite He, Hx, Hh, <- Hn.
  assert (H1 : (tally has_replied stages <= tally is_replier stages)%nat)
    by (apply tally_le; intros st; destruct st; cbn; lia).
  assert (H2 : (tally has_finished stages <= tally has_delivered stages)%nat)
    by (apply tally_le; intros st; destruct st; cbn; lia).
  assert (H3 : (tally has_delivered stages <= tally has_entered stages)%nat)
    by (apply tally_le; intros st; destruct st; cbn; lia).
  assert (H4 : (tally has_entered stages <= tally is_executing stages)%nat)
    by (apply tally_le; intros st; destruct st; cbn; lia).
  lia.
Qed.

(** Two goroutines collide at the guard: one request is delivered and
    answered, the other is refused. *)
Lemma replies_follow_deliveries_witness :
  let c :=
    pool_run sample_handle [0; 1; 0; 0; 0; 0; 2; 2; 2]%nat
      (Pool (mem sample_made) (env sample_made)
         (map sampleRequestExecutor [request1; request2]) []) in
  (count_events is_reply_handed (plog c) <=
   count_events is_deliver_exit (plog c))%nat /\
  (count_events is_deliver_exit (plog c) <=
   count_events is_deliver_enter (plog c))%nat /\
  (count_events is_deliver_enter (plog c) <= 2)%nat.
Proof.
  exact (@replies_follow_deliveries sample sample_handle sample0
           sampleExecutor 0 [request1; request2]
           [0; 1; 0; 0; 0; 0; 2; 2; 2]%nat eq_refl).
Defined.

(** X9: however the goroutines take turns, every Reply that is signed
    or handed to the generated-message handler bears the replica's id
    and the client id and sequence number of one of the requests. *)
Theorem replies_answer_requests :
  forall (S : Type) (handle : forall X, Ext X -> S -> X * S)
         (w0 : world S) (executor : operationExecutor) (id : Z)
         (requests : list Request.t) (schedule : list nat)
         (reply : Reply.t),
    outcome (run handle (makeOperationExecutor extConsumer) w0) =
    Returned executor ->
    let made := final (run handle (makeOperationExecutor extConsumer) w0) in
    let requestExecutor :=
      makeRequestExecutor id executor extSigner extHandleGeneratedMessage in
    let c :=
      pool_run handle schedule
        (Pool (mem made) (env made) (map requestExecutor requests) []) in
    (exists signature, In (EvExt (SignReply reply) signature) (plog c)) \/
    In (EvExt (HandleGeneratedMessage reply) tt) (plog c) ->
    reply.(Reply.Msg).(Reply_M.ReplicaId) = id /\
    exists request,
      In request requests /\
      reply.(Reply.Msg).(Reply_M.ClientId) =
      request.(Request.Msg).(Request_M.ClientId) /\
      reply.(Reply.Msg).(Reply_M.Seq) = request.(Request.Msg).(Request_M.Seq).
Proof.
  intros S handle w0 executor id requests schedule reply Hmade made
         requestExecutor c.
  subst made requestExecutor c.
  rewrite run_makeOperationExecutor in Hmade |- *.
  cbn [outcome final mem env] in Hmade |- *.
  injection Hmade as Hexec. subst executor.
  set (busy := List.length (mem w0)).
  set (c := pool_run handle schedule _).
  assert (Hc : tracked_pool busy id requests c).
  { subst c. apply pool_run_tracked. apply tracked_at_start. }
  destruct Hc as [stages [_ [_ [Hlog _]]]].
  rewrite Forall_forall in Hlog.
  intros [[signature Hin]|Hin]; apply Hlog in Hin; exact Hin.
Qed.

Lemma replies_answer_requests_witness :
  let reply :=
    {| Reply.Msg := {| Reply_M.ReplicaId := 0; Reply_M.ClientId := 7;
                       Reply_M.Seq := 1; Reply_M.Result := [x58] |};
       Reply.Signature := [x53; x49; x47] |} in
  reply.(Reply.Msg).(Reply_M.ReplicaId) = 0 /\
  exists request,
    In request [request1; request2] /\
    reply.(Reply.Msg).(Reply_M.ClientId) =
    request.(Request.Msg).(Request_M.ClientId) /\
    reply.(Reply.Msg).(Reply_M.Seq) = request.(Request.Msg).(Request_M.Seq).
Proof.
  intros reply.
  apply (@replies_answer_requests sample sample_handle sample0
           sampleExecutor 0 [request1; request2]
           [0; 1; 0; 0; 0; 0; 2; 2; 2]%nat reply eq_refl).
  right. vm_compute. do 7 right. left. reflexivity.
Defined.
